(** * The price-series engine of [djangoExample.py]

    A shallow embedding of the upload-path helpers, of [CSVFile] (date
    ranges and the static registries) and of [CalculateMixin] (chart
    normalisation, the composite specification graph and the table of
    period deltas), followed by the properties claimed of them.

    Conventions of the embedding.
    - A Python call either returns a value or raises: [result].  A bare
      [return] yields [None], so the chart functions return an optional
      list.
    - Prices are the values of a number type with Python's arithmetic
      operators and its test [x == 0]: [Number].  The general properties
      hold of every such type; two instances are given, binary64 floats,
      which is what Python computes with, and exact rationals.  [/] raises
      [ZeroDivisionError] on a divisor equal to zero.
    - A [datetime.date] is its proleptic Gregorian ordinal
      ([date.toordinal()]), from 1 for 0001-01-01 to 3652059 for
      9999-12-31; date arithmetic that leaves this range raises
      [OverflowError].
    - Library functions whose result depends on text in ways the file does
      not decide are parameters: [strptime], [int] on text, [str.lower],
      and the identifier that [uuid.uuid4] draws.
    - The model classes ([Balka], [CompositeIndex], ...) are not part of
      the file; a table is the list of its rows in the order that
      [first()] and [last()] follow (the ordering of the model, or the
      primary key), and a row carries its date and its numeric attributes
      by name. *)

From Stdlib Require Import ZArith QArith Qcanon List String Ascii Bool Lia.
From Stdlib Require Import DecimalString Decimal Sorted Floats.
Import ListNotations.

Local Open Scope Z_scope.

(** ** Results of Python calls *)

Inductive exn : Set :=
| AttributeError
| TypeError
| ValueError
| KeyError
| ZeroDivisionError
| UnboundLocalError
| OverflowError.

Definition exn_name (e : exn) : string :=
  match e with
  | AttributeError => "AttributeError"
  | TypeError => "TypeError"
  | ValueError => "ValueError"
  | KeyError => "KeyError"
  | ZeroDivisionError => "ZeroDivisionError"
  | UnboundLocalError => "UnboundLocalError"
  | OverflowError => "OverflowError"
  end.

Inductive result (A : Type) : Type :=
| Return (a : A)
| Raise (e : exn).

Arguments Return {A} a.
Arguments Raise {A} e.

Definition bind {A B : Type} (c : result A) (k : A -> result B) : result B :=
  match c with
  | Return a => k a
  | Raise e => Raise e
  end.

Notation "x <- c ;; k" := (bind c (fun x => k))
  (at level 61, c at next level, right associativity).

(** [o.attr] on a value that may be [None]. *)
Definition or_raise {A : Type} (e : exn) (o : option A) : result A :=
  match o with
  | Some a => Return a
  | None => Raise e
  end.

(** ** Numbers *)

(** The numbers of the prices: the value of an integer literal ([num]),
    the four operators, and the comparison [x == 0], which holds of the
    literal [0]. *)
Class Number (T : Type) : Type := {
  num : Z -> T;
  add : T -> T -> T;
  sub : T -> T -> T;
  mul : T -> T -> T;
  div : T -> T -> T;
  is_zero : T -> bool;
  is_zero_num_0 : is_zero (num 0) = true
}.

Declare Scope number_scope.
Delimit Scope number_scope with num.
Infix "+" := add : number_scope.
Infix "-" := sub : number_scope.
Infix "*" := mul : number_scope.
Infix "/" := div : number_scope.

(** Python's true division. *)
Definition py_div {T : Type} {number : Number T} (a b : T) : result T :=
  if is_zero b then Raise ZeroDivisionError else Return (a / b)%num.

(** Exact rationals. *)
#[export] Instance Qc_number : Number Qc := {|
  num := fun z => Q2Qc (inject_Z z);
  add := Qcplus;
  sub := Qcminus;
  mul := Qcmult;
  div := Qcdiv;
  is_zero := fun x => Qeq_bool x 0;
  is_zero_num_0 := eq_refl
|}.

(** [float(z)] for an integer below 2^63 in absolute value. *)
Definition float_of_Z (z : Z) : float :=
  match z with
  | Z0 => 0%float
  | Zpos _ => PrimFloat.of_uint63 (Uint63.of_Z z)
  | Zneg p => PrimFloat.opp (PrimFloat.of_uint63 (Uint63.of_Z (Zpos p)))
  end.

(** Binary64 floats, with the IEEE comparison for [x == 0]. *)
#[export] Instance float_number : Number float := {|
  num := float_of_Z;
  add := PrimFloat.add;
  sub := PrimFloat.sub;
  mul := PrimFloat.mul;
  div := PrimFloat.div;
  is_zero := fun x => PrimFloat.eqb x 0%float;
  is_zero_num_0 := eq_refl
|}.

(** ** Strings *)

(** ['{}'.format(n)] on an integer. *)
Definition format_int (n : Z) : string := NilZero.string_of_int (Z.to_int n).

(** [s.replace(old, new)] for a non-empty [old]: occurrences are replaced
    from the left and do not overlap; [skip] counts the characters of an
    occurrence that remain to be dropped. *)
Fixpoint replace_from (skip : nat) (old new s : string) : string :=
  match s with
  | EmptyString => EmptyString
  | String c s' =>
      match skip with
      | S k => replace_from k old new s'
      | O =>
          if String.prefix old s
          then (new ++ replace_from (String.length old - 1) old new s')%string
          else String c (replace_from 0 old new s')
      end
  end.

Definition str_replace (old new s : string) : string := replace_from 0 old new s.

(** [s.split(sep)] for a separator of one character: the pieces between
    the occurrences of [sep]; there is always at least one piece. *)
Fixpoint str_split (sep : ascii) (s : string) : list string :=
  match s with
  | EmptyString => [EmptyString]
  | String c s' =>
      if Ascii.eqb c sep then EmptyString :: str_split sep s'
      else
        match str_split sep s' with
        | [] => [String c EmptyString]
        | piece :: pieces => String c piece :: pieces
        end
  end.

(** ** Upload paths *)

(** [filename.split('.')[-1]]. *)
Definition get_file_format (filename : string) : string :=
  List.last (str_split "." filename) EmptyString.

(** [lower] is [str.lower], [uuid4] is the text of the identifier that
    [uuid.uuid4()] draws and [class_name] is
    [instance.__class__.__name__]; [os.path.join] of a single path is that
    path. *)
Definition get_file_path (lower : string -> string)
  (uuid4 class_name filename : string) : string :=
  let ext := get_file_format filename in
  let filename := (uuid4 ++ "." ++ ext)%string in
  (lower class_name ++ "/" ++ filename)%string.

(** ** Calendar: the [datetime] module on ordinals *)

Module Calendar.

Definition date : Type := Z.

(** The ordinals of [date.min] and [date.max]. *)
Definition MINORDINAL : Z := 1.
Definition MAXORDINAL : Z := 3652059.

Definition is_leap (year : Z) : bool :=
  (year mod 4 =? 0) && (negb (year mod 100 =? 0) || (year mod 400 =? 0)).

Definition days_before_year (year : Z) : Z :=
  let y := year - 1 in y * 365 + y / 4 - y / 100 + y / 400.

(** [_DAYS_IN_MONTH[month]], the table for a common year. *)
Definition DAYS_IN_MONTH (month : Z) : Z :=
  match month with
  | 2 => 28
  | 4 | 6 | 9 | 11 => 30
  | _ => 31
  end.

Definition days_in_month (year month : Z) : Z :=
  if (month =? 2) && is_leap year then 29 else DAYS_IN_MONTH month.

(** [_DAYS_BEFORE_MONTH[month]], the table for a common year. *)
Definition DAYS_BEFORE_MONTH (month : Z) : Z :=
  match month with
  | 1 => 0 | 2 => 31 | 3 => 59 | 4 => 90 | 5 => 120 | 6 => 151
  | 7 => 181 | 8 => 212 | 9 => 243 | 10 => 273 | 11 => 304 | 12 => 334
  | _ => 0
  end.

Definition days_before_month (year month : Z) : Z :=
  DAYS_BEFORE_MONTH month + (if (2 <? month) && is_leap year then 1 else 0).

(** [date(year, month, day).toordinal()]. *)
Definition ymd2ord (year month day : Z) : date :=
  days_before_year year + days_before_month year month + day.

(** [_ord2ymd]: year, month and day of an ordinal. *)
Definition ord2ymd (n : date) : Z * Z * Z :=
  let n := n - 1 in
  let n400 := n / 146097 in
  let n := n mod 146097 in
  let year := n400 * 400 + 1 in
  let n100 := n / 36524 in
  let n := n mod 36524 in
  let n4 := n / 1461 in
  let n := n mod 1461 in
  let n1 := n / 365 in
  let n := n mod 365 in
  let year := year + n100 * 100 + n4 * 4 + n1 in
  if (n1 =? 4) || (n100 =? 4) then (year - 1, 12, 31)
  else
    let leapyear := (n1 =? 3) && (negb (n4 =? 24) || (n100 =? 3)) in
    let month := Z.shiftr (n + 50) 5 in
    let preceding :=
      DAYS_BEFORE_MONTH month + (if (2 <? month) && leapyear then 1 else 0) in
    if n <? preceding
    then
      let month := month - 1 in
      let preceding :=
        preceding - (DAYS_IN_MONTH month
                     + (if (month =? 2) && leapyear then 1 else 0)) in
      (year, month, n - preceding + 1)
    else (year, month, n - preceding + 1).

Definition year_of (d : date) : Z := fst (fst (ord2ymd d)).

(** The date of an ordinal, when there is one. *)
Definition date_of_ordinal (n : Z) : result date :=
  if (MINORDINAL <=? n) && (n <=? MAXORDINAL) then Return n else Raise OverflowError.

(** [d - datetime.timedelta(days=n)] and [d + datetime.timedelta(days=n)]. *)
Definition minus_days (d : date) (n : Z) : result date := date_of_ordinal (d - n).
Definition plus_days (d : date) (n : Z) : result date := date_of_ordinal (d + n).

(** [d - relativedelta(years=years, months=months)] with [0 <= months <= 12]:
    the year and the month are shifted, and the day is clipped to the
    length of the month reached. *)
Definition minus_relativedelta (years months : Z) (d : date) : date :=
  let '(y, m, dd) := ord2ymd d in
  let year := y - years in
  let month := m - months in
  let '(year, month) :=
    if 12 <? month then (year + 1, month - 12)
    else if month <? 1 then (year - 1, month + 12)
    else (year, month) in
  ymd2ord year month (Z.min (days_in_month year month) dd).

End Calendar.

Import Calendar.

(** ** Dictionaries

    A [dict] keeps its keys in insertion order; assigning to a key that is
    present keeps its place. *)

Section Dict.

Context {K V : Type} (eqb : K -> K -> bool).

Fixpoint dict_get (k : K) (d : list (K * V)) : option V :=
  match d with
  | [] => None
  | (k', v) :: d' => if eqb k k' then Some v else dict_get k d'
  end.

Fixpoint dict_set (k : K) (v : V) (d : list (K * V)) : list (K * V) :=
  match d with
  | [] => [(k, v)]
  | (k', v') :: d' =>
      if eqb k k' then (k, v) :: d' else (k', v') :: dict_set k v d'
  end.

Definition dict_keys (d : list (K * V)) : list K := map fst d.

End Dict.

(** ** Rows and querysets *)

Record row (T : Type) : Type := {
  date_of : date;
  attrs : list (string * T)
}.

Arguments date_of {T} r.
Arguments attrs {T} r.

(** [getattr(obj, name)]: a name that is not a string is a [TypeError],
    a missing attribute (also on [None]) an [AttributeError]. *)
Definition getattr {T : Type} (obj : option (row T)) (name : option string)
  : result T :=
  match name with
  | None => Raise TypeError
  | Some n =>
      match obj with
      | None => Raise AttributeError
      | Some r => or_raise AttributeError (dict_get String.eqb n (attrs r))
      end
  end.

Module QuerySet.

Definition t (T : Type) : Type := list (row T).

Section Queries.

Context {T : Type}.

Definition first (qs : t T) : option (row T) := hd_error qs.

Fixpoint last (qs : t T) : option (row T) :=
  match qs with
  | [] => None
  | [r] => Some r
  | _ :: qs' => last qs'
  end.

Definition exists_ (qs : t T) : bool :=
  match qs with
  | [] => false
  | _ :: _ => true
  end.

Definition date_eq (d : date) (qs : t T) : t T :=
  filter (fun r => date_of r =? d) qs.

Definition date__lte (d : date) (qs : t T) : t T :=
  filter (fun r => date_of r <=? d) qs.

Definition date__gte (d : date) (qs : t T) : t T :=
  filter (fun r => d <=? date_of r) qs.

Definition date__range (lo hi : date) (qs : t T) : t T :=
  filter (fun r => (lo <=? date_of r) && (date_of r <=? hi)) qs.

Definition date__year__gte (y : Z) (qs : t T) : t T :=
  filter (fun r => y <=? year_of (date_of r)) qs.

Definition date__year__lte (y : Z) (qs : t T) : t T :=
  filter (fun r => year_of (date_of r) <=? y) qs.

End Queries.

End QuerySet.

(** The model classes that [CSVFile.get_class_mapping] and
    [CalculateMixin] name. *)
Inductive model : Set :=
| SheetGK
| Balka
| Schveller
| Ugolok
| ProfilTruba
| KruglayaTruba
| CompositeIndex.

Definition model_name (cls : model) : string :=
  match cls with
  | SheetGK => "SheetGK"
  | Balka => "Balka"
  | Schveller => "Schveller"
  | Ugolok => "Ugolok"
  | ProfilTruba => "ProfilTruba"
  | KruglayaTruba => "KruglayaTruba"
  | CompositeIndex => "CompositeIndex"
  end.

(** [cls.objects] for every model class. *)
Definition database (T : Type) : Type := model -> QuerySet.t T.

(** ** [CSVFile] *)

Record spec_entry (T : Type) : Type := {
  title : string;
  value : T
}.

Arguments title {T} s.
Arguments value {T} s.

Inductive date_arg : Type :=
| DateStr (s : string)
| DateObj (d : date).

(** A currency as a caller passes it: an integer code or a text. *)
Inductive currency_arg : Type :=
| CurrencyInt (n : Z)
| CurrencyText (s : string).

(** The dictionaries [{'code': ..., 'title': ...}] of the choice lists. *)
Module Choice.

Record t : Type := {
  code : Z;
  title : string
}.

End Choice.

Module CSVFile.

Definition DEFAULT_DATE_DELTA_DAYS : Z := 7.

Definition TYPE_INDEX : Z := 1.
Definition TYPE_SHEET : Z := 2.
Definition TYPE_BALKA : Z := 3.
Definition TYPE_SCHVELLER : Z := 4.
Definition TYPE_UGOLOK : Z := 5.
Definition TYPE_PROFIL_TRUBA : Z := 6.
Definition TYPE_KRUGLAYA_TRUBA : Z := 7.
Definition TYPE_FINAL_METHOD : Z := 8.
Definition TYPE_EXCHANGE_RATES : Z := 9.
Definition TYPE_SHARE_SPECIFICATIONS : Z := 10.

Definition FILE_TYPES : list (Z * string) :=
  [ (TYPE_INDEX, "Composite index");
    (TYPE_SHEET, "Sheet g/p");
    (TYPE_BALKA, "Beam");
    (TYPE_SCHVELLER, "Channel");
    (TYPE_UGOLOK, "Corner");
    (TYPE_PROFIL_TRUBA, "Profile pipe");
    (TYPE_KRUGLAYA_TRUBA, "Round tube");
    (TYPE_FINAL_METHOD, "Indicator by final method");
    (TYPE_EXCHANGE_RATES, "Exchange rates");
    (TYPE_SHARE_SPECIFICATIONS, "Specification shares") ]%string.

Definition UAH : Z := 1.
Definition USD : Z := 2.
Definition EURO : Z := 3.

Definition CURRENCY_FIELDS : list (Z * string) :=
  [ (UAH, "avg_uah"); (USD, "avg_usd"); (EURO, "avg_euro") ]%string.

Definition get_class_mapping : list (Z * model) :=
  [ (TYPE_SHEET, SheetGK);
    (TYPE_BALKA, Balka);
    (TYPE_SCHVELLER, Schveller);
    (TYPE_UGOLOK, Ugolok);
    (TYPE_PROFIL_TRUBA, ProfilTruba);
    (TYPE_KRUGLAYA_TRUBA, KruglayaTruba) ].

(** [get_graph_names]: the loop [names[t[0]] = t[1]] over [FILE_TYPES]. *)
Definition get_graph_names : list (Z * string) :=
  fold_left (fun names t => dict_set Z.eqb (fst t) (snd t) names) FILE_TYPES [].

Section SpecificationPercent.

Context {T : Type} {number : Number T}.

(** [get_specification_percent]: the default specification, in the order
    of the dictionary display. *)
Definition get_specification_percent : result (list (string * spec_entry T)) :=
  let names_dict := get_graph_names in
  let entry (code : Z) (v : Z) : result (string * spec_entry T) :=
    t <- or_raise KeyError (dict_get Z.eqb code names_dict) ;;
    Return (format_int code, {| title := t; value := num v |}) in
  e1 <- entry TYPE_SHEET 60 ;;
  e2 <- entry TYPE_BALKA 10 ;;
  e3 <- entry TYPE_SCHVELLER 10 ;;
  e4 <- entry TYPE_UGOLOK 10 ;;
  e5 <- entry TYPE_PROFIL_TRUBA 5 ;;
  e6 <- entry TYPE_KRUGLAYA_TRUBA 5 ;;
  Return [e1; e2; e3; e4; e5; e6].

End SpecificationPercent.

Definition TYPE_SIZES : list (Z * string) :=
  [ (TYPE_INDEX, "");
    (TYPE_SHEET, "from 5 to 14 mm");
    (TYPE_BALKA, "№20");
    (TYPE_SCHVELLER, "№18");
    (TYPE_UGOLOK, "63х5");
    (TYPE_PROFIL_TRUBA, "100х4");
    (TYPE_KRUGLAYA_TRUBA, "114х4");
    (TYPE_FINAL_METHOD, "");
    (TYPE_EXCHANGE_RATES, "");
    (TYPE_SHARE_SPECIFICATIONS, "") ]%string.

Definition CURRENCY_LIST : list (Z * string) :=
  [ (UAH, "Hryvna"); (USD, "Dollar"); (EURO, "Euro") ]%string.

(** [get_currencies]: one dictionary per entry of [CURRENCY_LIST]. *)
Definition get_currencies : list Choice.t :=
  fold_left
    (fun currencies currency =>
       currencies ++ [{| Choice.code := fst currency; Choice.title := snd currency |}])
    CURRENCY_LIST [].

(** [get_types_title_dict]: ['{} {}'.format(title, TYPE_SIZES[code])] for
    every file type; the subscript raises [KeyError] on a code without a
    size. *)
Definition get_types_title_dict : result (list (Z * string)) :=
  fold_left
    (fun acc type_ =>
       types_dict <- acc ;;
       size <- or_raise KeyError (dict_get Z.eqb (fst type_) TYPE_SIZES) ;;
       Return (dict_set Z.eqb (fst type_) (snd type_ ++ " " ++ size)%string types_dict))
    FILE_TYPES (Return []).

(** [get_graph_types]: the file types that are not excluded. *)
Definition get_graph_types : list Choice.t :=
  let exclude_types :=
    [TYPE_FINAL_METHOD; TYPE_EXCHANGE_RATES; TYPE_SHARE_SPECIFICATIONS] in
  fold_left
    (fun types t =>
       if negb (existsb (Z.eqb (fst t)) exclude_types)
       then types ++ [{| Choice.code := fst t; Choice.title := snd t |}]
       else types)
    FILE_TYPES [].

Definition get_fields_for_table : list (Z * string) :=
  [ (TYPE_SHEET, "size_5_1500");
    (TYPE_BALKA, "size_20");
    (TYPE_SCHVELLER, "size_18");
    (TYPE_UGOLOK, "size_63_5");
    (TYPE_PROFIL_TRUBA, "size_100_50_4");
    (TYPE_KRUGLAYA_TRUBA, "size_114_4") ]%string.

Section GetDates.

(** [datetime.datetime.strptime(s, "%Y-%m-%d").date()], which raises
    [ValueError] on malformed text, and [datetime.date.today()]. *)
Variable strptime : string -> result date.
Variable today : date.

(** The string-to-date translation of one argument; [None] and the empty
    string are falsy and stay as they are. *)
Definition translate (a : option date_arg) : result (option date) :=
  match a with
  | None => Return None
  | Some (DateObj d) => Return (Some d)
  | Some (DateStr s) =>
      if (s =? "")%string then Return None
      else d <- strptime s ;; Return (Some d)
  end.

(** The [while date_from <= date_to] loop; [None] when [fuel] iterations
    did not reach the exit.  The step to the next day raises past
    [date.max]. *)
Fixpoint get_dates_loop (fuel : nat) (date_from date_to : date)
  (dates : list date) : result (option (list date)) :=
  if date_from <=? date_to then
    match fuel with
    | O => Return None
    | S fuel' =>
        let dates := dates ++ [date_from] in
        date_from <- plus_days date_from 1 ;;
        get_dates_loop fuel' date_from date_to dates
    end
  else Return (Some dates).

Definition get_dates (fuel : nat) (date_from date_to : option date_arg)
  : result (option (list date)) :=
  date_from <- translate date_from ;;
  date_to <- translate date_to ;;
  let date_to :=
    match date_to with
    | Some d => d
    | None => today
    end in
  date_from <-
    match date_from with
    | Some d => Return d
    | None => minus_days date_to DEFAULT_DATE_DELTA_DAYS
    end ;;
  get_dates_loop fuel date_from date_to [].

End GetDates.

End CSVFile.

(** ** [CalculateMixin] *)

(** The dictionary [get_data_table] returns. *)
Record table_data (T : Type) : Type := {
  current : T;
  month_ago : T;
  start_year : T;
  year_ago : T
}.

Arguments current {T} t.
Arguments month_ago {T} t.
Arguments start_year {T} t.
Arguments year_ago {T} t.

Module CalculateMixin.

Import CSVFile.

(** The truth value of the [currency] argument: [None], the integer [0]
    and the empty text are falsy. *)
Definition currency_given (currency : option currency_arg) : bool :=
  match currency with
  | None => false
  | Some (CurrencyInt n) => negb (n =? 0)
  | Some (CurrencyText s) => negb (s =? "")%string
  end.

(** Lines 304-306: the composite index has no [avg_] fields. *)
Definition fix_composite_field (cls : model) (calculating_field : option string)
  : result (option string) :=
  if (model_name cls =? "CompositeIndex")%string then
    f <- or_raise AttributeError calculating_field ;;
    Return (Some (str_replace "avg_" "" f))
  else Return calculating_field.

Section Charts.

Context {T : Type} {number : Number T}.

(** [int] on a text: the integer it reads, or the error it raises. *)
Variable py_int : string -> result Z.

Variable objects : database T.

(** [int(currency)]. *)
Definition int_of_currency (currency : currency_arg) : result Z :=
  match currency with
  | CurrencyInt n => Return n
  | CurrencyText s => py_int s
  end.

(** Lines 299-302 and 342-345: the field that the currency selects. *)
Definition calculating_field_of (currency : option currency_arg)
  : result (option string) :=
  match currency with
  | Some c =>
      if currency_given currency then
        code <- int_of_currency c ;;
        Return (dict_get Z.eqb code CURRENCY_FIELDS)
      else Return (Some "avg_uah"%string)
  | None => Return (Some "avg_uah"%string)
  end.

(** Lines 299-306: the field that [get_data_charts] reads. *)
Definition selected_field (cls : model) (currency : option currency_arg)
  : result (option string) :=
  calculating_field <- calculating_field_of currency ;;
  fix_composite_field cls calculating_field.

(** One step of the loop over [dates] in [get_data_charts]. *)
Definition chart_step (data_from_db : QuerySet.t T) (calculating_field : option string)
  (standart_value : T) (step_date : date) : result T :=
  let step_value := QuerySet.first (QuerySet.date_eq step_date data_from_db) in
  step_value <-
    match step_value with
    | Some r => getattr (Some r) calculating_field
    | None => Return standart_value
    end ;;
  if is_zero standart_value then Return step_value
  else py_div (step_value * num 100)%num standart_value.

Fixpoint chart_loop (data_from_db : QuerySet.t T) (calculating_field : option string)
  (standart_value : T) (dates : list date) (calculated_data : list T)
  : result (list T) :=
  match dates with
  | [] => Return calculated_data
  | step_date :: dates' =>
      item <- chart_step data_from_db calculating_field standart_value step_date ;;
      chart_loop data_from_db calculating_field standart_value dates'
        (calculated_data ++ [item])
  end.

Definition get_data_charts (cls : model) (dates : list date)
  (currency : option currency_arg) : result (option (list T)) :=
  if (List.length dates <? 2)%nat then Return None
  else
    calculating_field <- selected_field cls currency ;;
    let first_date := hd 0 dates in
    let last_date := List.last dates 0 in
    let standart_value := QuerySet.last (QuerySet.date__lte first_date (objects cls)) in
    match standart_value with
    | None => Return None
    | Some r =>
        standart_value <- getattr (Some r) calculating_field ;;
        let data_from_db := QuerySet.date__range first_date last_date (objects cls) in
        calculated_data <-
          chart_loop data_from_db calculating_field standart_value dates [] ;;
        Return (Some calculated_data)
    end.

(** The locals of [grahp_specification_data] that the caching loop
    touches.  [standart_value] is bound to [0] before the loop;
    [standard_value] is a different name, local to the function because
    the loop assigns it, and unbound ([None]) until then. *)
Record locals : Type := {
  cached_data : list (string * QuerySet.t T);
  standart_value : T;
  standard_value : option T
}.

(** Lines 356-358: the pool of records cached for a model class. *)
Definition period_data_of (first_date last_date : date) (klass : model) : QuerySet.t T :=
  let period_data := QuerySet.date__range first_date last_date (objects klass) in
  if negb (QuerySet.exists_ period_data)
  then QuerySet.date__lte last_date (objects klass)
  else period_data.

(** The body of [for graph_key in kwargs.keys()].  The augmented
    assignment on line 365 reads [standard_value] before it evaluates its
    right-hand side. *)
Definition cache_step (first_date last_date : date) (calculating_field : option string)
  (kwargs : list (string * spec_entry T)) (l : locals) (graph_key : string)
  : result locals :=
  code <- py_int graph_key ;;
  klass <- or_raise AttributeError (dict_get Z.eqb code get_class_mapping) ;;
  let period_data := period_data_of first_date last_date klass in
  let l := {| cached_data := dict_set String.eqb graph_key period_data (cached_data l);
              standart_value := standart_value l;
              standard_value := standard_value l |} in
  if negb (QuerySet.exists_ period_data) then Return l
  else
    old <- or_raise UnboundLocalError (standard_value l) ;;
    v <- getattr (QuerySet.first period_data) calculating_field ;;
    w <- or_raise KeyError (dict_get String.eqb graph_key kwargs) ;;
    Return {| cached_data := cached_data l;
              standart_value := standart_value l;
              standard_value := Some (old + v * value w)%num |}.

Fixpoint cache_loop (first_date last_date : date) (calculating_field : option string)
  (kwargs : list (string * spec_entry T)) (keys : list string) (l : locals)
  : result locals :=
  match keys with
  | [] => Return l
  | graph_key :: keys' =>
      l' <- cache_step first_date last_date calculating_field kwargs l graph_key ;;
      cache_loop first_date last_date calculating_field kwargs keys' l'
  end.

(** Lines 372-376: the record of a pool that stands for [step_date]. *)
Definition data_step_of (pool : QuerySet.t T) (step_date : date) : option (row T) :=
  match QuerySet.first (QuerySet.date_eq step_date pool) with
  | Some r => Some r
  | None =>
      match QuerySet.last (QuerySet.date__lte step_date pool) with
      | Some r => Some r
      | None => QuerySet.first (QuerySet.date__gte step_date pool)
      end
  end.

(** The loop [for graph_key in cached_data] for one [step_date]. *)
Fixpoint summ_loop (cached : list (string * QuerySet.t T))
  (calculating_field : option string) (kwargs : list (string * spec_entry T))
  (step_date : date) (keys : list string) (summ : T) : result T :=
  match keys with
  | [] => Return summ
  | graph_key :: keys' =>
      pool <- or_raise KeyError (dict_get String.eqb graph_key cached) ;;
      match data_step_of pool step_date with
      | None => summ_loop cached calculating_field kwargs step_date keys' summ
      | Some data_step =>
          v <- getattr (Some data_step) calculating_field ;;
          w <- or_raise KeyError (dict_get String.eqb graph_key kwargs) ;;
          summ_loop cached calculating_field kwargs step_date keys'
            (summ + v * value w)%num
      end
  end.

Fixpoint specification_loop (l : locals) (calculating_field : option string)
  (kwargs : list (string * spec_entry T)) (dates : list date)
  (calculated_data : list T) : result (list T) :=
  match dates with
  | [] => Return calculated_data
  | step_date :: dates' =>
      summ <- summ_loop (cached_data l) calculating_field kwargs step_date
                (dict_keys (cached_data l)) (num 0) ;;
      item <- py_div (summ * num 100)%num (standart_value l) ;;
      specification_loop l calculating_field kwargs dates' (calculated_data ++ [item])
  end.

Definition grahp_specification_data (dates : list date)
  (currency : option currency_arg) (kwargs : list (string * spec_entry T))
  : result (option (list T)) :=
  if (List.length dates <? 2)%nat then Return None
  else
    calculating_field <- calculating_field_of currency ;;
    let first_date := hd 0 dates in
    let last_date := List.last dates 0 in
    let l := {| cached_data := []; standart_value := num 0; standard_value := None |} in
    l <- cache_loop first_date last_date calculating_field kwargs (dict_keys kwargs) l ;;
    calculated_data <- specification_loop l calculating_field kwargs dates [] ;;
    Return (Some calculated_data).

(** [((a - b) / b) * 100]. *)
Definition percent_change (a b : T) : result T :=
  q <- py_div (a - b)%num b ;;
  Return (q * num 100)%num.

(** [today] is [datetime.date.today()], the date of the clock, whose month
    and year before exist. *)
Definition get_data_table (today : date) (cls : model) (price_field : string)
  : result (table_data T) :=
  let today_data := QuerySet.last (QuerySet.date__lte today (objects cls)) in
  let month_ago := minus_relativedelta 0 1 today in
  let month_ago_data := QuerySet.last (QuerySet.date__lte month_ago (objects cls)) in
  let start_year_data :=
    QuerySet.first (QuerySet.date__year__gte (year_of today) (objects cls)) in
  let start_year_data :=
    match start_year_data with
    | Some r => Some r
    | None => QuerySet.last (QuerySet.date__year__lte (year_of today) (objects cls))
    end in
  let year_ago := minus_relativedelta 1 0 today in
  let year_ago_data := QuerySet.last (QuerySet.date__lte year_ago (objects cls)) in
  today_data <- getattr today_data (Some price_field) ;;
  month_ago_data <- getattr month_ago_data (Some price_field) ;;
  start_year_data <- getattr start_year_data (Some price_field) ;;
  year_ago_data <- getattr year_ago_data (Some price_field) ;;
  m <- percent_change today_data month_ago_data ;;
  s <- percent_change today_data start_year_data ;;
  y <- percent_change today_data year_ago_data ;;
  Return {| current := today_data; month_ago := m; start_year := s; year_ago := y |}.

End Charts.

End CalculateMixin.

(** ** Vocabulary of the properties *)

(** Dates strictly ascending: the order of a table that holds at most one
    row per date, oldest first. *)
Fixpoint ascending (ds : list date) : bool :=
  match ds with
  | [] => true
  | d :: ds' => forallb (fun d' => d <? d') ds' && ascending ds'
  end.

(** Every date of the list lies between its first and its last element,
    as in the ranges [get_dates] builds. *)
Definition in_window (dates : list date) : bool :=
  forallb (fun d => (hd 0 dates <=? d) && (d <=? List.last dates 0)) dates.

(** The ordinals that are dates. *)
Definition valid_date (d : date) : Prop := MINORDINAL <= d <= MAXORDINAL.

(** The days from [date_from] to [date_to], both included. *)
Definition date_span (date_from date_to : date) : list date :=
  map (fun i => date_from + Z.of_nat i) (seq 0 (Z.to_nat (date_to - date_from + 1))).

Section Vocabulary.

Context {T : Type}.

Definition ordered_by_date (qs : QuerySet.t T) : bool := ascending (map date_of qs).

Definition attr (r : row T) (name : string) : option T :=
  dict_get String.eqb name (attrs r).

(** Every row of the table has the attribute. *)
Definition has_attr (name : string) (qs : QuerySet.t T) : bool :=
  forallb (fun r => match attr r name with Some _ => true | None => false end) qs.

(** [r] is the most recent row of [qs] among those that satisfy [P]. *)
Definition latest_such (P : row T -> Prop) (qs : QuerySet.t T) (r : row T) : Prop :=
  In r qs /\ P r /\ forall r', In r' qs -> P r' -> date_of r' <= date_of r.

(** [r] is the oldest row of [qs] among those that satisfy [P]. *)
Definition earliest_such (P : row T -> Prop) (qs : QuerySet.t T) (r : row T) : Prop :=
  In r qs /\ P r /\ forall r', In r' qs -> P r' -> date_of r <= date_of r'.

Definition none_such (P : row T -> Prop) (qs : QuerySet.t T) : Prop :=
  forall r, In r qs -> ~ P r.

(** The value [get_data_charts] scales on a date: that of the row of the
    date, and the baseline on a date without a row. *)
Definition step_value_is (qs : QuerySet.t T) (name : string) (baseline : T)
  (d : date) (step : T) : Prop :=
  (forall r, In r qs -> date_of r = d -> attr r name = Some step)
  /\ (none_such (fun r => date_of r = d) qs -> step = baseline).

(** The row that stands for a date in the composite: the row of the date,
    else the most recent earlier row, else the oldest later row. *)
Definition fallback_chain (pool : QuerySet.t T) (d : date) (o : option (row T)) : Prop :=
  match o with
  | Some r =>
      In r pool
      /\ (date_of r = d
          \/ (none_such (fun r' => date_of r' = d) pool
              /\ latest_such (fun r' => date_of r' <= d) pool r)
          \/ (none_such (fun r' => date_of r' <= d) pool
              /\ earliest_such (fun r' => d <= date_of r') pool r))
  | None => pool = []
  end.

(** The start-of-year anchor in the words of the specification: the first
    row dated in the current calendar year and, when the year has none,
    the most recent row at or before the end of the year. *)
Definition start_year_anchor_spec (today : date) (qs : QuerySet.t T) : option (row T) :=
  match QuerySet.first (filter (fun r => year_of (date_of r) =? year_of today) qs) with
  | Some r => Some r
  | None => QuerySet.last (QuerySet.date__lte (ymd2ord (year_of today) 12 31) qs)
  end.

(** The tables without the rows dated after [d]. *)
Definition rows_until (d : date) (objects : database T) : database T :=
  fun cls => QuerySet.date__lte d (objects cls).

End Vocabulary.

(** The exception class that the specification calls by another name. *)
Definition raises_named {A : Type} (c : result A) (name : string) : Prop :=
  exists e, c = Raise e /\ exn_name e = name.

(** Whether a character occurs in a text. *)
Fixpoint str_contains (c : ascii) (s : string) : bool :=
  match s with
  | EmptyString => false
  | String c' s' => Ascii.eqb c' c || str_contains c s'
  end.

(** ** Sample data *)

Module Sample.

Import CSVFile.

Definition jan (n : Z) : date := ymd2ord 2024 1 n.

Definition no_strptime (s : string) : result date := Raise ValueError.

(** A reader of plain decimal numerals; it stands for [int] on the keys
    and currencies of the samples, where the two agree: [int('3')] is
    [3]. *)
Definition decimal_int (s : string) : result Z :=
  match NilZero.int_of_string s with
  | Some i => Return (Z.of_int i)
  | None => Raise ValueError
  end.

(** A lowering of the ASCII capitals; it stands for [str.lower] on class
    names written in ASCII. *)
Definition ascii_lower (c : ascii) : ascii :=
  let n := nat_of_ascii c in
  if ((65 <=? n) && (n <=? 90))%nat then ascii_of_nat (n + 32) else c.

Fixpoint str_lower (s : string) : string :=
  match s with
  | EmptyString => EmptyString
  | String c s' => String (ascii_lower c) (str_lower s')
  end.

Section Tables.

Variable T : Type.
Context {number : Number T}.

Definition priced (d : date) (uah : Z) : row T :=
  {| date_of := d; attrs := [("avg_uah"%string, num uah)] |}.

Definition indexed (d : date) (uah usd : Z) : row T :=
  {| date_of := d; attrs := [("uah"%string, num uah); ("usd"%string, num usd)] |}.

Definition weight (t : string) (w : Z) : spec_entry T :=
  {| title := t; value := num w |}.

(** Beam rows on 1 and 3 January, none on 2 January. *)
Definition beam_db : database T :=
  fun cls =>
    match cls with
    | Balka => [priced (jan 1) 100; priced (jan 3) 110]
    | _ => []
    end.

(** Beam at 50 then 60, corner at 25 on both days. *)
Definition beam_corner_db : database T :=
  fun cls =>
    match cls with
    | Balka => [priced (jan 1) 50; priced (jan 2) 60]
    | Ugolok => [priced (jan 1) 25; priced (jan 2) 25]
    | _ => []
    end.

Definition beam_corner_spec : list (string * spec_entry T) :=
  [ ("3"%string, weight "Beam" 2); ("5"%string, weight "Corner" 1) ].

Definition beam_only_spec : list (string * spec_entry T) :=
  [ ("3"%string, weight "Beam" 1) ].

(** A beam series that starts at zero. *)
Definition zero_db : database T :=
  fun cls =>
    match cls with
    | Balka => [priced (jan 1) 0; priced (jan 2) 7]
    | _ => []
    end.

(** Composite index rows with different values per currency. *)
Definition index_db : database T :=
  fun cls =>
    match cls with
    | CompositeIndex => [indexed (jan 1) 100 4; indexed (jan 2) 110 5]
    | _ => []
    end.

(** A year of beam prices seen from 3 November 2026. *)
Definition year_db : database T :=
  fun cls =>
    match cls with
    | Balka =>
        [ priced (ymd2ord 2025 10 1) 80;
          priced (ymd2ord 2026 1 10) 90;
          priced (ymd2ord 2026 9 30) 100;
          priced (ymd2ord 2026 11 1) 120 ]
    | _ => []
    end.

(** No row in 2026, one row already dated in 2027. *)
Definition future_db : database T :=
  fun cls =>
    match cls with
    | Balka => [priced (ymd2ord 2025 6 1) 100; priced (ymd2ord 2027 1 5) 200]
    | _ => []
    end.

Definition empty_db : database T := fun _ => [].

(** The year of beam prices with a price of zero a month ago. *)
Definition zero_month_db : database T :=
  fun cls =>
    match cls with
    | Balka =>
        [ priced (ymd2ord 2025 10 1) 80;
          priced (ymd2ord 2026 1 10) 90;
          priced (ymd2ord 2026 9 30) 0;
          priced (ymd2ord 2026 11 1) 120 ]
    | _ => []
    end.

(** A single beam row, more than a year old on 3 November 2026. *)
Definition stale_db : database T :=
  fun cls =>
    match cls with
    | Balka => [priced (ymd2ord 2024 5 1) 70]
    | _ => []
    end.

(** Beam rows every other day. *)
Definition sparse_db : database T :=
  fun cls =>
    match cls with
    | Balka => [priced (jan 1) 100; priced (jan 3) 110; priced (jan 5) 120]
    | _ => []
    end.

End Tables.

Definition today_2026 : date := ymd2ord 2026 11 3.

End Sample.
(** * Properties *)

Import CSVFile CalculateMixin.

(** ** Numbers and results *)

Section NumberFacts.

Context {T : Type} {number : Number T}.

Lemma py_div_zero (a : T) : py_div a (num 0) = Raise ZeroDivisionError.
Proof. unfold py_div. now rewrite is_zero_num_0. Qed.

Lemma py_div_nonzero (a b : T) :
  is_zero b = false -> py_div a b = Return (a / b)%num.
Proof. intro H. unfold py_div. now rewrite H. Qed.

End NumberFacts.

(** On exact rationals [x == 0] is equality with zero. *)
Lemma is_zero_true (x : Qc) : is_zero x = true <-> x = 0%Qc.
Proof.
  cbn [is_zero Qc_number]. rewrite Qeq_bool_iff. split.
  - intro H. now apply Qc_is_canon.
  - intros ->. reflexivity.
Qed.

Lemma is_zero_false (x : Qc) : is_zero x = false <-> x <> 0%Qc.
Proof.
  rewrite <- is_zero_true. destruct (is_zero x); split; congruence.
Qed.

(** Concrete results are compared piecewise, the rationals on their
    canonical fractions. *)
Ltac qc_eq :=
  vm_compute;
  repeat match goal with
    | |- @eq Qc _ _ => apply Qc_is_canon; vm_compute; reflexivity
    | |- Return _ = Return _ => apply f_equal
    | |- Some _ = Some _ => apply f_equal
    | |- cons _ _ = cons _ _ => apply f_equal2
    | |- nil = nil => reflexivity
    | |- Build_table_data _ _ _ _ = Build_table_data _ _ _ _ => apply f_equal4
    end.

(** Facts about the rows of a concrete table: membership by inspection,
    comparisons of dates by evaluation. *)
Ltac by_rows :=
  repeat split;
  [ simpl; tauto
  | vm_compute; first [reflexivity | intro; discriminate]
  | let r' := fresh "r" in
    let Hin := fresh "Hin" in
    let HP := fresh "HP" in
    intros r' Hin HP; simpl in Hin;
    repeat (destruct Hin as [Hin|Hin]; [subst r'|]);
    try contradiction;
    first [ vm_compute; intro; discriminate
          | exfalso; vm_compute in HP; first [now apply HP | discriminate HP] ] ].

(** ** Querysets *)

Section QuerySetFacts.

Context {T : Type}.

Implicit Types (qs : QuerySet.t T) (r : row T) (p : row T -> bool).

Lemma last_cons r qs :
  QuerySet.last (r :: qs) =
  match QuerySet.last qs with
  | Some r' => Some r'
  | None => Some r
  end.
Proof.
  revert r. induction qs as [|a qs IH]; intro r; [reflexivity|].
  change (QuerySet.last (r :: a :: qs)) with (QuerySet.last (a :: qs)).
  rewrite (IH a). now destruct (QuerySet.last qs).
Qed.

Lemma last_none qs : QuerySet.last qs = None -> qs = [].
Proof.
  destruct qs as [|r qs]; [reflexivity|].
  rewrite last_cons. now destruct (QuerySet.last qs).
Qed.

Lemma last_in qs r : QuerySet.last qs = Some r -> In r qs.
Proof.
  induction qs as [|a qs IH]; [discriminate|].
  rewrite last_cons. destruct (QuerySet.last qs) as [r'|].
  - intro H. right. now apply IH.
  - intros [= ->]. now left.
Qed.

Lemma first_in qs r : QuerySet.first qs = Some r -> In r qs.
Proof.
  destruct qs; [discriminate|]. intros [= ->]. now left.
Qed.

Lemma first_none qs : QuerySet.first qs = None -> qs = [].
Proof. now destruct qs. Qed.

Lemma ordered_cons r qs :
  ordered_by_date (r :: qs) = true ->
  (forall r', In r' qs -> date_of r < date_of r') /\ ordered_by_date qs = true.
Proof.
  unfold ordered_by_date. simpl. rewrite andb_true_iff, forallb_forall.
  intros [H1 H2]. split; [|exact H2].
  intros r' Hin. apply Z.ltb_lt, H1, in_map, Hin.
Qed.

Lemma ordered_filter p qs :
  ordered_by_date qs = true -> ordered_by_date (filter p qs) = true.
Proof.
  induction qs as [|a qs IH]; [reflexivity|].
  intro H. destruct (ordered_cons _ _ H) as [Hlt Hqs].
  simpl. destruct (p a); [|now apply IH].
  unfold ordered_by_date. simpl. rewrite andb_true_iff, forallb_forall. split.
  - intros d Hd. apply in_map_iff in Hd as [r' [<- Hr']].
    apply filter_In in Hr' as [Hr' _]. apply Z.ltb_lt. now apply Hlt.
  - now apply IH.
Qed.

(** At most one row per date. *)
Lemma ordered_unique qs r r' :
  ordered_by_date qs = true ->
  In r qs -> In r' qs -> date_of r = date_of r' -> r = r'.
Proof.
  induction qs as [|a qs IH]; [contradiction|].
  intro H. destruct (ordered_cons _ _ H) as [Hlt Hqs].
  intros [->|Hr] [->|Hr'] Heq; auto.
  - specialize (Hlt _ Hr'). lia.
  - specialize (Hlt _ Hr). lia.
Qed.

Lemma first_oldest qs r :
  ordered_by_date qs = true -> QuerySet.first qs = Some r ->
  forall r', In r' qs -> date_of r <= date_of r'.
Proof.
  destruct qs as [|a qs]; [discriminate|].
  intros H [= ->] r' [->|Hin]; [lia|].
  destruct (ordered_cons _ _ H) as [Hlt _]. specialize (Hlt _ Hin). lia.
Qed.

Lemma last_latest qs r :
  ordered_by_date qs = true -> QuerySet.last qs = Some r ->
  forall r', In r' qs -> date_of r' <= date_of r.
Proof.
  induction qs as [|a qs IH]; [discriminate|].
  intro H. destruct (ordered_cons _ _ H) as [Hlt Hqs].
  rewrite last_cons. destruct (QuerySet.last qs) as [l|] eqn:El.
  - intros [= ->] r' [->|Hin].
    + specialize (Hlt _ (last_in _ _ El)). lia.
    + now apply IH.
  - apply last_none in El. subst qs. intros [= ->] r' [->|[]]. lia.
Qed.

(** [filter(...).last()] is the most recent row that passes the filter. *)
Lemma last_filter_latest (P : row T -> Prop) p qs r :
  (forall x, p x = true <-> P x) ->
  ordered_by_date qs = true ->
  latest_such P qs r -> QuerySet.last (filter p qs) = Some r.
Proof.
  intros Hp Hord (Hin & HP & Hmax).
  assert (Hf : In r (filter p qs)) by (apply filter_In; split; [|apply Hp]; assumption).
  destruct (QuerySet.last (filter p qs)) as [l|] eqn:El.
  - f_equal. pose proof (last_in _ _ El) as Hl.
    apply filter_In in Hl as [Hl Hpl].
    apply (ordered_unique qs); auto.
    pose proof (last_latest _ _ (ordered_filter p _ Hord) El _ Hf).
    specialize (Hmax l Hl (proj1 (Hp l) Hpl)). lia.
  - apply last_none in El. rewrite El in Hf. contradiction.
Qed.

Lemma latest_of_last_filter (P : row T -> Prop) p qs r :
  (forall x, p x = true <-> P x) ->
  ordered_by_date qs = true ->
  QuerySet.last (filter p qs) = Some r -> latest_such P qs r.
Proof.
  intros Hp Hord El. pose proof (last_in _ _ El) as Hl.
  apply filter_In in Hl as [Hl Hpl]. repeat split; auto.
  - now apply Hp.
  - intros r' Hr' HP. apply (last_latest _ _ (ordered_filter p _ Hord) El).
    apply filter_In. split; [|apply Hp]; assumption.
Qed.

(** [filter(...).first()] is the oldest row that passes the filter. *)
Lemma first_filter_earliest (P : row T -> Prop) p qs r :
  (forall x, p x = true <-> P x) ->
  ordered_by_date qs = true ->
  earliest_such P qs r -> QuerySet.first (filter p qs) = Some r.
Proof.
  intros Hp Hord (Hin & HP & Hmin).
  assert (Hf : In r (filter p qs)) by (apply filter_In; split; [|apply Hp]; assumption).
  destruct (QuerySet.first (filter p qs)) as [l|] eqn:El.
  - f_equal. pose proof (first_in _ _ El) as Hl.
    apply filter_In in Hl as [Hl Hpl].
    apply (ordered_unique qs); auto.
    pose proof (first_oldest _ _ (ordered_filter p _ Hord) El _ Hf).
    specialize (Hmin l Hl (proj1 (Hp l) Hpl)). lia.
  - apply first_none in El. rewrite El in Hf. contradiction.
Qed.

Lemma earliest_of_first_filter (P : row T -> Prop) p qs r :
  (forall x, p x = true <-> P x) ->
  ordered_by_date qs = true ->
  QuerySet.first (filter p qs) = Some r -> earliest_such P qs r.
Proof.
  intros Hp Hord El. pose proof (first_in _ _ El) as Hl.
  apply filter_In in Hl as [Hl Hpl]. repeat split; auto.
  - now apply Hp.
  - intros r' Hr' HP. apply (first_oldest _ _ (ordered_filter p _ Hord) El).
    apply filter_In. split; [|apply Hp]; assumption.
Qed.

Lemma filter_none (P : row T -> Prop) p qs :
  (forall x, p x = true <-> P x) ->
  none_such P qs -> filter p qs = [].
Proof.
  intros Hp Hnone. induction qs as [|a qs IH]; [reflexivity|].
  simpl. destruct (p a) eqn:Ea.
  - exfalso. apply (Hnone a); [now left | now apply Hp].
  - apply IH. intros r Hr. apply Hnone. now right.
Qed.

Lemma none_of_filter (P : row T -> Prop) p qs :
  (forall x, p x = true <-> P x) ->
  filter p qs = [] -> none_such P qs.
Proof.
  intros Hp Hf r Hr HP.
  assert (In r (filter p qs)) by (apply filter_In; split; [|apply Hp]; assumption).
  rewrite Hf in *. contradiction.
Qed.

Lemma filter_filter p q qs :
  (forall x, In x qs -> p x = true -> q x = true) ->
  filter p (filter q qs) = filter p qs.
Proof.
  intro H. induction qs as [|a qs IH]; [reflexivity|].
  simpl. destruct (q a) eqn:Eq.
  - simpl. destruct (p a); [f_equal|]; apply IH; intros; apply H; auto; now right.
  - destruct (p a) eqn:Ep.
    + rewrite H in Eq; [discriminate | now left | assumption].
    + apply IH. intros; apply H; auto; now right.
Qed.

End QuerySetFacts.

(** ** [CSVFile.get_dates] *)

Section DateSpan.

Lemma date_span_empty (a b : date) : b < a -> date_span a b = [].
Proof.
  intro H. unfold date_span.
  replace (Z.to_nat (b - a + 1)) with 0%nat by lia. reflexivity.
Qed.

Lemma date_span_cons (a b : date) :
  a <= b -> date_span a b = a :: date_span (a + 1) b.
Proof.
  intro H. unfold date_span.
  replace (Z.to_nat (b - a + 1)) with (S (Z.to_nat (b - (a + 1) + 1))) by lia.
  cbn [seq map]. rewrite <- seq_shift, map_map.
  change (Z.of_nat 0) with 0. rewrite Z.add_0_r.
  apply f_equal, map_ext. intro i. lia.
Qed.

Lemma date_span_length (a b : date) :
  List.length (date_span a b) = Z.to_nat (b - a + 1).
Proof. unfold date_span. now rewrite length_map, length_seq. Qed.

Lemma date_span_nth (a b : date) (i : nat) :
  (i < List.length (date_span a b))%nat -> nth i (date_span a b) 0 = a + Z.of_nat i.
Proof.
  rewrite date_span_length. intro H. unfold date_span.
  rewrite (nth_indep _ 0 (a + Z.of_nat 0)) by (now rewrite length_map, length_seq).
  rewrite (map_nth (fun i => a + Z.of_nat i)), seq_nth by assumption.
  reflexivity.
Qed.

Lemma date_span_in (a b d : date) : In d (date_span a b) <-> a <= d <= b.
Proof.
  unfold date_span. rewrite in_map_iff. split.
  - intros [i [<- Hi]]. apply in_seq in Hi. lia.
  - intro H. exists (Z.to_nat (d - a)). split; [lia|]. apply in_seq. lia.
Qed.

Lemma date_span_last (a b : date) : a <= b -> List.last (date_span a b) 0 = b.
Proof.
  intro H. unfold date_span.
  replace (Z.to_nat (b - a + 1)) with (Z.to_nat (b - a) + 1)%nat by lia.
  rewrite seq_app, map_app. cbn [seq map]. rewrite last_last. lia.
Qed.

Lemma plus_days_next (d : date) :
  0 <= d < MAXORDINAL -> plus_days d 1 = Return (d + 1).
Proof.
  intro H. unfold plus_days, date_of_ordinal, MINORDINAL, MAXORDINAL in *.
  destruct (1 <=? d + 1) eqn:E1; [|apply Z.leb_gt in E1; lia].
  destruct (d + 1 <=? 3652059) eqn:E2; [reflexivity | apply Z.leb_gt in E2; lia].
Qed.

Lemma plus_days_overflow (d : date) : plus_days MAXORDINAL d = Raise OverflowError \/ d <= 0.
Proof.
  unfold plus_days, date_of_ordinal, MINORDINAL, MAXORDINAL.
  destruct (3652059 + d <=? 3652059) eqn:E.
  - right. apply Z.leb_le in E. lia.
  - left. now rewrite andb_false_r.
Qed.

Lemma minus_days_valid (d n : Z) :
  MINORDINAL <= d - n <= MAXORDINAL -> minus_days d n = Return (d - n).
Proof.
  intro H. unfold minus_days, date_of_ordinal.
  destruct (MINORDINAL <=? d - n) eqn:E1; [|apply Z.leb_gt in E1; lia].
  destruct (d - n <=? MAXORDINAL) eqn:E2; [reflexivity | apply Z.leb_gt in E2; lia].
Qed.

Lemma minus_days_overflow (d n : Z) :
  d - n < MINORDINAL -> minus_days d n = Raise OverflowError.
Proof.
  intro H. unfold minus_days, date_of_ordinal.
  destruct (MINORDINAL <=? d - n) eqn:E1; [apply Z.leb_le in E1; lia | reflexivity].
Qed.

(** With enough fuel, and an end before [date.max], the loop leaves
    through its test. *)
Lemma get_dates_loop_span (fuel : nat) :
  forall (a b : date) (acc : list date),
    0 <= a -> b < MAXORDINAL ->
    (Z.to_nat (b - a + 1) <= fuel)%nat ->
    get_dates_loop fuel a b acc = Return (Some (acc ++ date_span a b)).
Proof.
  induction fuel as [|fuel IH]; intros a b acc Ha Hb Hfuel.
  - simpl. destruct (a <=? b) eqn:E; [apply Z.leb_le in E; lia|].
    apply Z.leb_gt in E. now rewrite date_span_empty, app_nil_r.
  - simpl. destruct (a <=? b) eqn:E.
    + apply Z.leb_le in E. rewrite plus_days_next by lia. cbn [bind].
      rewrite IH by lia.
      rewrite (date_span_cons a b E), <- app_assoc. reflexivity.
    + apply Z.leb_gt in E. now rewrite date_span_empty, app_nil_r.
Qed.

(** An empty period never enters the loop. *)
Lemma get_dates_loop_empty (fuel : nat) (a b : date) (acc : list date) :
  b < a -> get_dates_loop fuel a b acc = Return (Some acc).
Proof.
  intro H. apply Z.leb_gt in H. destruct fuel; simpl; now rewrite H.
Qed.

(** A period that ends on [date.max] is left by the step past it. *)
Lemma get_dates_loop_overflow (fuel : nat) :
  forall (a : date) (acc : list date),
    0 <= a <= MAXORDINAL ->
    (Z.to_nat (MAXORDINAL - a + 1) <= fuel)%nat ->
    get_dates_loop fuel a MAXORDINAL acc = Raise OverflowError.
Proof.
  induction fuel as [|fuel IH]; intros a acc Ha Hfuel; [lia|].
  simpl. destruct (a <=? MAXORDINAL) eqn:E; [|apply Z.leb_gt in E; lia].
  destruct (Z.eq_dec a MAXORDINAL) as [->|Hne].
  - reflexivity.
  - rewrite plus_days_next by lia. cbn [bind]. apply IH; lia.
Qed.

(** The ranges that [get_dates] builds lie within their window. *)
Lemma date_span_in_window (a b : date) : in_window (date_span a b) = true.
Proof.
  unfold in_window. apply forallb_forall. intros d Hd.
  pose proof (proj1 (date_span_in a b d) Hd) as Hab.
  assert (Hle : a <= b) by lia.
  rewrite (date_span_last a b Hle), (date_span_cons a b Hle). cbn [hd].
  apply andb_true_iff. split; apply Z.leb_le; lia.
Qed.

End DateSpan.

(** C4, as stated, fails at the ends of the calendar: for the period from
    9999-12-30 to 9999-12-31 the loop steps past [date.max] after the last
    date and [get_dates] raises [OverflowError] instead of returning the
    two dates; and with no [date_from] and a [date_to] of 0001-01-05 the
    default start, seven days earlier, is before [date.min]. *)
Lemma get_dates_overflows :
  valid_date (ymd2ord 9999 12 30) /\ valid_date (ymd2ord 9999 12 31)
  /\ ymd2ord 9999 12 30 <= ymd2ord 9999 12 31
  /\ get_dates Sample.no_strptime Sample.today_2026 10
       (Some (DateObj (ymd2ord 9999 12 30))) (Some (DateObj (ymd2ord 9999 12 31)))
     = Raise OverflowError
  /\ valid_date (ymd2ord 1 1 5)
  /\ get_dates Sample.no_strptime Sample.today_2026 10 None
       (Some (DateObj (ymd2ord 1 1 5)))
     = Raise OverflowError.
Proof.
  unfold valid_date. repeat split; try reflexivity; vm_compute; intro H; discriminate H.
Qed.

(** C4, amended. [get_dates] takes today for a missing [date_to] and, when
    [date_to] is on or after 0001-01-08, [date_to] minus seven days for a
    missing [date_from].  For dates with [date_from <= date_to] and
    [date_to] before 9999-12-31 it returns, given enough iterations, the
    dates from [date_from] to [date_to], both included, in steps of one
    day: [(date_to - date_from).days + 1] of them, from [date_from] up to
    [date_to].  When [date_from > date_to] it returns no date.  It raises
    [OverflowError] for a missing [date_from] with a [date_to] before
    0001-01-08, and for a period that ends on 9999-12-31. *)
Theorem get_dates_range (strptime : string -> result date) (today : date)
  (date_from date_to : date) (fuel : nat) :
  valid_date date_from -> valid_date date_to ->
  (Z.to_nat (date_to - date_from + 1) <= fuel)%nat ->
  let run := get_dates strptime today fuel in
  (forall a, run a None = run a (Some (DateObj today)))
  /\ (forall t, 8 <= t <= MAXORDINAL ->
        run None (Some (DateObj t)) = run (Some (DateObj (t - 7))) (Some (DateObj t)))
  /\ (date_from <= date_to -> date_to < MAXORDINAL ->
      exists dates,
        run (Some (DateObj date_from)) (Some (DateObj date_to)) = Return (Some dates)
        /\ (forall d, In d dates <-> date_from <= d <= date_to)
        /\ (forall i, (S i < List.length dates)%nat ->
              nth (S i) dates 0 = nth i dates 0 + 1)
        /\ Z.of_nat (List.length dates) = date_to - date_from + 1
        /\ hd_error dates = Some date_from
        /\ List.last dates 0 = date_to)
  /\ (date_to < date_from ->
      run (Some (DateObj date_from)) (Some (DateObj date_to)) = Return (Some []))
  /\ (forall t, t < 8 -> run None (Some (DateObj t)) = Raise OverflowError)
  /\ (date_from <= date_to -> date_to = MAXORDINAL ->
      run (Some (DateObj date_from)) (Some (DateObj date_to)) = Raise OverflowError).
Proof.
  intros Hfrom Hto Hfuel run. unfold valid_date, MINORDINAL in *.
  split; [|split; [|split; [|split; [|split]]]].
  - intro a. unfold run, get_dates. destruct (translate strptime a); reflexivity.
  - intros t Ht. unfold run, get_dates. cbn [translate bind].
    unfold DEFAULT_DATE_DELTA_DAYS. rewrite minus_days_valid; [reflexivity|].
    unfold MINORDINAL. lia.
  - intros Hle Hmax. exists (date_span date_from date_to).
    split; [|split; [|split; [|split; [|split]]]].
    + unfold run, get_dates. cbn [translate bind].
      now rewrite get_dates_loop_span by lia.
    + apply date_span_in.
    + intros i Hi. rewrite !date_span_nth by lia. lia.
    + rewrite date_span_length. lia.
    + now rewrite date_span_cons.
    + now apply date_span_last.
  - intro Hlt. unfold run, get_dates. cbn [translate bind].
    now apply get_dates_loop_empty.
  - intros t Ht. unfold run, get_dates. cbn [translate bind].
    unfold DEFAULT_DATE_DELTA_DAYS.
    rewrite minus_days_overflow by (unfold MINORDINAL; lia). reflexivity.
  - intros Hle ->. unfold run, get_dates. cbn [translate bind].
    apply get_dates_loop_overflow; lia.
Qed.

Lemma get_dates_range_witness :
  get_dates Sample.no_strptime 20 8 None (Some (DateObj 10))
  = Return (Some [3; 4; 5; 6; 7; 8; 9; 10]).
Proof.
  destruct (get_dates_range Sample.no_strptime 20 3 10 8) as (_ & Hdefault & Hspan & _);
    [unfold valid_date; vm_compute; split; intro H; discriminate H
    | unfold valid_date; vm_compute; split; intro H; discriminate H
    | vm_compute; lia |].
  rewrite Hdefault by (vm_compute; split; intro H; discriminate H).
  destruct Hspan as (dates & Hrun & Hin & _ & Hlen & _);
    [lia | vm_compute; reflexivity |].
  change (10 - 7) with 3. rewrite Hrun. do 2 f_equal.
  unfold get_dates in Hrun. vm_compute in Hrun. now injection Hrun as <-.
Defined.

(** ** [CalculateMixin.get_data_charts] *)

Section ChartFacts.

Context {T : Type} {number : Number T}.
Variable py_int : string -> result Z.

Lemma long_enough (dates : list date) :
  (2 <= List.length dates)%nat -> (List.length dates <? 2)%nat = false.
Proof. intro H. apply Nat.ltb_ge. exact H. Qed.

Lemma in_window_bounds (dates : list date) (d : date) :
  in_window dates = true -> In d dates ->
  hd 0 dates <= d <= List.last dates 0.
Proof.
  unfold in_window. rewrite forallb_forall. intros H Hd.
  specialize (H d Hd). apply andb_true_iff in H as [H1 H2].
  apply Z.leb_le in H1, H2. lia.
Qed.

Lemma has_attr_in (name : string) (qs : QuerySet.t T) (r : row T) :
  has_attr name qs = true -> In r qs -> exists v, attr r name = Some v.
Proof.
  unfold has_attr. rewrite forallb_forall. intros H Hr.
  specialize (H r Hr). destruct (attr r name) as [v|]; [now exists v | discriminate].
Qed.

Lemma getattr_attr (r : row T) (name : string) (v : T) :
  attr r name = Some v -> getattr (Some r) (Some name) = Return v.
Proof. unfold getattr, attr. now intros ->. Qed.

(** Behind the test of line 325 the division of line 328 cannot fail. *)
Lemma guarded_division (step sv : T) :
  (if is_zero sv then Return step else py_div (step * num 100)%num sv)
  = Return (if is_zero sv then step else (step * num 100 / sv)%num).
Proof. unfold py_div. now destruct (is_zero sv). Qed.

(** The value scaled on one date is that of the row of the date, and the
    baseline where the table has no row for the date. *)
Lemma chart_step_value (qs : QuerySet.t T) (name : string) (sv : T) (lo hi d : date) :
  ordered_by_date qs = true -> has_attr name qs = true -> lo <= d <= hi ->
  exists step,
    chart_step (QuerySet.date__range lo hi qs) (Some name) sv d
    = Return (if is_zero sv then step else (step * num 100 / sv)%num)
    /\ step_value_is qs name sv d step.
Proof.
  intros Hord Hattr Hd. unfold chart_step, QuerySet.date_eq, QuerySet.date__range.
  rewrite filter_filter.
  2:{ intros x _ Hx. apply Z.eqb_eq in Hx. apply andb_true_iff.
      split; apply Z.leb_le; lia. }
  destruct (QuerySet.first (filter (fun r => date_of r =? d) qs)) as [r|] eqn:E.
  - pose proof (first_in _ _ E) as Hr. apply filter_In in Hr as [Hr Hdr].
    apply Z.eqb_eq in Hdr.
    destruct (has_attr_in _ _ _ Hattr Hr) as [v Hv].
    exists v. rewrite (getattr_attr _ _ _ Hv). cbn [bind]. split.
    + apply guarded_division.
    + split.
      * intros r' Hr' Hdr'.
        now rewrite (ordered_unique qs r' r Hord Hr' Hr) by congruence.
      * intro Hnone. now destruct (Hnone r Hr).
  - apply first_none in E. exists sv. cbn [bind]. split.
    + apply guarded_division.
    + split; [|reflexivity].
      intros r Hr Hdr. exfalso.
      apply (none_of_filter (fun x => date_of x = d) _ qs
               (fun x => Z.eqb_eq (date_of x) d) E r Hr Hdr).
Qed.

Lemma chart_loop_forall2 (Q : date -> T -> Prop) (dfd : QuerySet.t T)
  (f : option string) (sv : T) (dates : list date) :
  (forall d, In d dates -> exists item, chart_step dfd f sv d = Return item /\ Q d item) ->
  forall acc, exists out,
    chart_loop dfd f sv dates acc = Return (acc ++ out) /\ Forall2 Q dates out.
Proof.
  induction dates as [|d dates IH]; intros H acc.
  - exists []. now rewrite app_nil_r.
  - destruct (H d (or_introl eq_refl)) as [item [Hitem HQ]].
    destruct (IH (fun x Hx => H x (or_intror Hx)) (acc ++ [item])) as [out [Hout HF]].
    exists (item :: out). cbn [chart_loop]. rewrite Hitem. cbn [bind].
    rewrite Hout, <- app_assoc. now split; [|constructor].
Qed.

(** What [get_data_charts] returns once the baseline row is known. *)
Lemma get_data_charts_returns (objects : database T) (cls : model) (dates : list date)
  (currency : option currency_arg) (name : string) (b : row T) (vb : T) :
  (2 <= List.length dates)%nat ->
  in_window dates = true ->
  selected_field py_int cls currency = Return (Some name) ->
  ordered_by_date (objects cls) = true ->
  has_attr name (objects cls) = true ->
  latest_such (fun r => date_of r <= hd 0 dates) (objects cls) b ->
  attr b name = Some vb ->
  exists out,
    get_data_charts py_int objects cls dates currency = Return (Some out)
    /\ Forall2 (fun d item =>
                  exists step, step_value_is (objects cls) name vb d step
                    /\ item = if is_zero vb then step else (step * num 100 / vb)%num)
         dates out.
Proof.
  intros Hlen Hwin Hfield Hord Hattr Hb Hvb.
  unfold get_data_charts. rewrite (long_enough _ Hlen), Hfield. cbn [bind].
  unfold QuerySet.date__lte.
  rewrite (last_filter_latest (fun r => date_of r <= hd 0 dates) _ _ b); auto.
  2:{ intro x. apply Z.leb_le. }
  rewrite (getattr_attr _ _ _ Hvb). cbn [bind].
  destruct (chart_loop_forall2
              (fun d item => exists step, step_value_is (objects cls) name vb d step
                 /\ item = if is_zero vb then step else (step * num 100 / vb)%num)
              (QuerySet.date__range (hd 0 dates) (List.last dates 0) (objects cls))
              (Some name) vb dates) with (acc := @nil T) as [out [Hout HF]].
  - intros d Hd.
    destruct (chart_step_value (objects cls) name vb (hd 0 dates) (List.last dates 0) d)
      as [step [Hstep Hval]]; auto using in_window_bounds.
    eexists. split; [exact Hstep|]. now exists step.
  - exists out. rewrite Hout. now split.
Qed.

Lemma get_data_charts_no_baseline (objects : database T) (cls : model)
  (dates : list date) (currency : option currency_arg) (name : string) :
  (2 <= List.length dates)%nat ->
  selected_field py_int cls currency = Return (Some name) ->
  none_such (fun r => date_of r <= hd 0 dates) (objects cls) ->
  get_data_charts py_int objects cls dates currency = Return None.
Proof.
  intros Hlen Hfield Hnone.
  unfold get_data_charts. rewrite (long_enough _ Hlen), Hfield. cbn [bind].
  unfold QuerySet.date__lte.
  rewrite (filter_none (fun r => date_of r <= hd 0 dates)); auto.
  intro x. apply Z.leb_le.
Qed.

End ChartFacts.

(** C3. On a list of at least two dates [get_data_charts] takes as
    baseline the most recent row at or before [dates[0]] and returns
    [None] when there is none; otherwise it returns one value per date, in
    the order of the dates, computed from the row of the date, or from the
    baseline on a date without a row, as [step * 100 / baseline] when the
    baseline is not zero, whatever the numbers are.  On 1 to 3 January
    2024 with rows 100 on the 1st and 110 on the 3rd the output is
    [100, 100, 110], in exact arithmetic and in binary64 floats. *)
Theorem get_data_charts_normalizes :
  (forall (T : Type) (number : Number T) (py_int : string -> result Z)
          (objects : database T) (cls : model) (dates : list date)
          (currency : option currency_arg) (name : string),
      (2 <= List.length dates)%nat ->
      in_window dates = true ->
      selected_field py_int cls currency = Return (Some name) ->
      ordered_by_date (objects cls) = true ->
      has_attr name (objects cls) = true ->
      (none_such (fun r => date_of r <= hd 0 dates) (objects cls) ->
       get_data_charts py_int objects cls dates currency = Return None)
      /\ (forall b vb,
             latest_such (fun r => date_of r <= hd 0 dates) (objects cls) b ->
             attr b name = Some vb -> is_zero vb = false ->
             exists out,
               get_data_charts py_int objects cls dates currency = Return (Some out)
               /\ List.length out = List.length dates
               /\ Forall2 (fun d item =>
                             exists step, step_value_is (objects cls) name vb d step
                               /\ item = (step * num 100 / vb)%num)
                    dates out))
  /\ get_data_charts Sample.decimal_int (Sample.beam_db Qc) Balka
       [Sample.jan 1; Sample.jan 2; Sample.jan 3] None
     = Return (Some [num 100; num 100; num 110])
  /\ get_data_charts Sample.decimal_int (Sample.beam_db float) Balka
       [Sample.jan 1; Sample.jan 2; Sample.jan 3] None
     = Return (Some [100; 100; 110]%float).
Proof.
  split; [|split].
  - intros T number py_int objects cls dates currency name Hlen Hwin Hfield Hord Hattr.
    split.
    + now apply get_data_charts_no_baseline with (name := name).
    + intros b vb Hb Hvb Hnz.
      destruct (get_data_charts_returns py_int objects cls dates currency name b vb)
        as [out [Hout HF]]; auto.
      exists out. split; [exact Hout|]. split.
      * symmetry. exact (Forall2_length HF).
      * rewrite Hnz in HF. exact HF.
  - qc_eq.
  - reflexivity.
Qed.

Lemma get_data_charts_normalizes_witness :
  get_data_charts Sample.decimal_int (Sample.beam_db Qc) Balka
      [Sample.jan 1; Sample.jan 2; Sample.jan 3] None
  = Return (Some [num 100; num 100; num 110]).
Proof.
  destruct (proj1 get_data_charts_normalizes Qc _ Sample.decimal_int
              (Sample.beam_db Qc) Balka
              [Sample.jan 1; Sample.jan 2; Sample.jan 3] None "avg_uah"%string)
    as [_ H]; [simpl; lia | reflexivity | reflexivity | reflexivity | reflexivity |].
  destruct (H (Sample.priced Qc (Sample.jan 1) 100) (num 100)) as [out [Hout [_ HF]]].
  - by_rows.
  - reflexivity.
  - reflexivity.
  - rewrite Hout.
    inversion HF as [|d1 i1 ds1 os1 [s1 [[H1 _] E1]] HF1]; subst.
    inversion HF1 as [|d2 i2 ds2 os2 [s2 [[_ H2] E2]] HF2]; subst.
    inversion HF2 as [|d3 i3 ds3 os3 [s3 [[H3 _] E3]] HF3]; subst.
    inversion HF3; subst.
    specialize (H1 (Sample.priced Qc (Sample.jan 1) 100) (or_introl eq_refl) eq_refl).
    specialize (H3 (Sample.priced Qc (Sample.jan 3) 110) (or_intror (or_introl eq_refl))
                  eq_refl).
    injection H1 as <-. injection H3 as <-. rewrite H2.
    + do 2 apply f_equal.
      repeat (apply f_equal2; [apply Qc_is_canon; reflexivity|]). reflexivity.
    + intros r Hin Hd. simpl in Hin.
      destruct Hin as [<-|[<-|[]]]; vm_compute in Hd; discriminate Hd.
Defined.

(** C8. When the baseline value is exactly zero (it compares equal to
    [0]) [get_data_charts] divides nothing: it returns, one per date, the
    raw value of the row of the date, and the zero baseline on a date
    without a row. *)
Theorem get_data_charts_zero_baseline {T : Type} {number : Number T}
  (py_int : string -> result Z) (objects : database T) (cls : model)
  (dates : list date) (currency : option currency_arg) (name : string)
  (b : row T) (vb : T) :
  (2 <= List.length dates)%nat ->
  in_window dates = true ->
  selected_field py_int cls currency = Return (Some name) ->
  ordered_by_date (objects cls) = true ->
  has_attr name (objects cls) = true ->
  latest_such (fun r => date_of r <= hd 0 dates) (objects cls) b ->
  attr b name = Some vb ->
  is_zero vb = true ->
  exists out,
    get_data_charts py_int objects cls dates currency = Return (Some out)
    /\ List.length out = List.length dates
    /\ Forall2 (fun d item => step_value_is (objects cls) name vb d item) dates out.
Proof.
  intros Hlen Hwin Hfield Hord Hattr Hb Hvb Hz.
  destruct (get_data_charts_returns py_int objects cls dates currency name b vb)
    as [out [Hout HF]]; auto.
  exists out. split; [exact Hout|]. split.
  - symmetry. exact (Forall2_length HF).
  - revert HF. apply Forall2_impl. intros d item [step [Hstep ->]].
    rewrite Hz. exact Hstep.
Qed.

Lemma get_data_charts_zero_baseline_witness :
  get_data_charts Sample.decimal_int (Sample.zero_db Qc) Balka [Sample.jan 1; Sample.jan 2] None
  = Return (Some [num 0; num 7]).
Proof.
  destruct (get_data_charts_zero_baseline Sample.decimal_int (Sample.zero_db Qc) Balka
              [Sample.jan 1; Sample.jan 2] None "avg_uah"%string
              (Sample.priced Qc (Sample.jan 1) 0) (num 0))
    as [out Hout];
    [simpl; lia | reflexivity | reflexivity | reflexivity | reflexivity
    | by_rows | reflexivity | reflexivity |].
  destruct Hout as (Hout & _ & HF). rewrite Hout.
  inversion HF as [|d1 i1 ds1 os1 [H1 _] HF1]; subst.
  inversion HF1 as [|d2 i2 ds2 os2 [H2 _] HF2]; subst.
  inversion HF2; subst.
  specialize (H1 (Sample.priced Qc (Sample.jan 1) 0) (or_introl eq_refl) eq_refl).
  specialize (H2 (Sample.priced Qc (Sample.jan 2) 7) (or_intror (or_introl eq_refl)) eq_refl).
  injection H1 as <-. injection H2 as <-. reflexivity.
Defined.

(** C9, as stated, fails: on composite-index rows whose [uah] and [usd]
    values differ, the hryvna and dollar runs over the same dates return
    different series. *)
Lemma composite_index_currency_matters :
  get_data_charts Sample.decimal_int (Sample.index_db Qc) CompositeIndex
      [Sample.jan 1; Sample.jan 2] (Some (CurrencyInt UAH))
  <> get_data_charts Sample.decimal_int (Sample.index_db Qc) CompositeIndex
      [Sample.jan 1; Sample.jan 2] (Some (CurrencyInt USD)).
Proof.
  intro H.
  apply (f_equal (fun c => match c with
                           | Return (Some [_; x]) => Qnum (this x)
                           | _ => 0
                           end)) in H.
  vm_compute in H. discriminate H.
Qed.

(** C9, amended. For the composite index [get_data_charts] reads the
    attribute named by the currency with the [avg_] prefix removed: [uah]
    without a currency or for the hryvna, [usd] for the dollar, [euro] for
    the euro.  Two runs over the same dates and rows that differ only in
    the currency return equal results when both currencies select the
    same attribute. *)
Theorem composite_index_currency_field (py_int : string -> result Z) :
  (selected_field py_int CompositeIndex None
     = Return (Some "uah"%string)
   /\ selected_field py_int CompositeIndex (Some (CurrencyInt UAH))
     = Return (Some "uah"%string)
   /\ selected_field py_int CompositeIndex (Some (CurrencyInt USD))
     = Return (Some "usd"%string)
   /\ selected_field py_int CompositeIndex (Some (CurrencyInt EURO))
     = Return (Some "euro"%string))
  /\ forall (T : Type) (number : Number T) (objects : database T)
            (dates : list date) (c1 c2 : option currency_arg),
       selected_field py_int CompositeIndex c1
       = selected_field py_int CompositeIndex c2 ->
       get_data_charts py_int objects CompositeIndex dates c1
       = get_data_charts py_int objects CompositeIndex dates c2.
Proof.
  split; [repeat split|].
  intros T number objects dates c1 c2 H. unfold get_data_charts. now rewrite H.
Qed.

Lemma composite_index_currency_field_witness :
  get_data_charts Sample.decimal_int (Sample.index_db Qc) CompositeIndex
      [Sample.jan 1; Sample.jan 2] None
  = get_data_charts Sample.decimal_int (Sample.index_db Qc) CompositeIndex
      [Sample.jan 1; Sample.jan 2] (Some (CurrencyInt UAH)).
Proof.
  apply (proj2 (composite_index_currency_field Sample.decimal_int)). reflexivity.
Defined.

(** ** [CSVFile.get_specification_percent] *)

(** C10. The default specification has one entry for each of the six
    product categories (sheet, beam, channel, corner, profile pipe, round
    tube), the categories of [get_class_mapping]: the keys are the codes
    of the mapping written in decimal.  The weights are the integers 60,
    10, 10, 10, 5 and 5: every weight is positive and the six weights add
    up to 100. *)
Theorem get_specification_percent_defaults :
  exists spec : list (string * spec_entry Qc),
    get_specification_percent = Return spec
    /\ map fst spec
       = map format_int [TYPE_SHEET; TYPE_BALKA; TYPE_SCHVELLER; TYPE_UGOLOK;
                         TYPE_PROFIL_TRUBA; TYPE_KRUGLAYA_TRUBA]
    /\ map fst spec = map (fun m => format_int (fst m)) get_class_mapping
    /\ map (fun e => Sample.decimal_int (fst e)) spec
       = map (fun m => Return (fst m)) get_class_mapping
    /\ map (fun e => title (snd e)) spec
       = ["Sheet g/p"; "Beam"; "Channel"; "Corner"; "Profile pipe"; "Round tube"]%string
    /\ map (fun e => value (snd e)) spec = map num [60; 10; 10; 10; 5; 5]
    /\ Forall (fun e => (0 < value (snd e))%Qc) spec
    /\ fold_right Qcplus (num 0) (map (fun e => value (snd e)) spec) = num 100.
Proof.
  eexists. split; [reflexivity|].
  split; [reflexivity|]. split; [reflexivity|]. split; [reflexivity|].
  split; [reflexivity|]. split; [reflexivity|]. split.
  - repeat constructor.
  - apply Qc_is_canon. reflexivity.
Qed.

(** ** [CalculateMixin.get_data_table] *)

Section TableFacts.

Context {T : Type} {number : Number T}.

Variable price_field : string.

Lemma getattr_cases (o : option (row T)) :
  getattr o (Some price_field) = Raise AttributeError
  \/ exists r v, o = Some r /\ getattr o (Some price_field) = Return v.
Proof.
  destruct o as [r|]; [|now left]. unfold getattr.
  destruct (dict_get String.eqb price_field (attrs r)) as [v|]; [right|now left].
  now exists r, v.
Qed.

(** A missing row at any of the four anchors stops the function at the
    conversion of the rows to prices. *)
Lemma get_data_table_anchors (a1 a2 a3 a4 : option (row T)) :
  a1 = None \/ a2 = None \/ a3 = None \/ a4 = None ->
  (x1 <- getattr a1 (Some price_field) ;;
   x2 <- getattr a2 (Some price_field) ;;
   x3 <- getattr a3 (Some price_field) ;;
   x4 <- getattr a4 (Some price_field) ;;
   m <- percent_change x1 x2 ;;
   s <- percent_change x1 x3 ;;
   y <- percent_change x1 x4 ;;
   Return {| current := x1; month_ago := m; start_year := s; year_ago := y |})
  = Raise AttributeError.
Proof.
  intro H.
  destruct (getattr_cases a1) as [->|(r1 & v1 & -> & ->)]; [reflexivity|]. cbn [bind].
  destruct (getattr_cases a2) as [->|(r2 & v2 & -> & ->)]; [reflexivity|]. cbn [bind].
  destruct (getattr_cases a3) as [->|(r3 & v3 & -> & ->)]; [reflexivity|]. cbn [bind].
  destruct (getattr_cases a4) as [->|(r4 & v4 & -> & ->)]; [reflexivity|].
  destruct H as [H|[H|[H|H]]]; discriminate H.
Qed.

Lemma percent_change_nonzero (a b : T) :
  is_zero b = false -> percent_change a b = Return ((a - b) / b * num 100)%num.
Proof.
  intro H. unfold percent_change. now rewrite py_div_nonzero.
Qed.

End TableFacts.

(** C5, as stated, fails: seen from 3 November 2026, with no row in 2026
    and a row already dated in January 2027, the start-of-year reference is
    the 2027 row (200, a change of -50 percent) and not the most recent
    row before the end of 2026 (100, no change). *)
Lemma start_year_takes_later_year :
  exists d r v p,
    get_data_table (Sample.future_db Qc) Sample.today_2026 Balka "avg_uah" = Return d
    /\ start_year_anchor_spec Sample.today_2026 (Sample.future_db Qc Balka) = Some r
    /\ attr r "avg_uah" = Some v
    /\ percent_change (current d) v = Return p
    /\ start_year d <> p.
Proof.
  eexists. exists (Sample.priced Qc (ymd2ord 2025 6 1) 100), (num 100). eexists.
  split; [vm_compute; reflexivity|].
  split; [reflexivity|]. split; [reflexivity|].
  split; [vm_compute; reflexivity|].
  cbn [start_year]. intro H. apply (f_equal (fun x => Qnum (this x))) in H.
  discriminate H.
Qed.

(** C5, amended. On a table ordered by date [get_data_table] takes as
    current, month-ago and year-ago anchors the most recent row at or
    before today, today minus one calendar month and today minus one
    calendar year; as start-of-year anchor the oldest row dated in the
    current calendar year or later, and when there is none the most recent
    row dated in the current year or before.  It returns the current value
    and, for each other anchor, [(current - reference) / reference * 100];
    with 120 now and 100 a month ago the change is 20, in exact
    arithmetic and in binary64 floats. *)
Theorem get_data_table_deltas :
  (forall (T : Type) (number : Number T)
          (objects : database T) (today : date) (cls : model) (price_field : string)
          (rc rm rs ry : row T) (vc vm vs vy : T),
      ordered_by_date (objects cls) = true ->
      latest_such (fun r => date_of r <= today) (objects cls) rc ->
      latest_such (fun r => date_of r <= minus_relativedelta 0 1 today) (objects cls) rm ->
      (earliest_such (fun r => year_of today <= year_of (date_of r)) (objects cls) rs
       \/ (none_such (fun r => year_of today <= year_of (date_of r)) (objects cls)
           /\ latest_such (fun r => year_of (date_of r) <= year_of today) (objects cls) rs)) ->
      latest_such (fun r => date_of r <= minus_relativedelta 1 0 today) (objects cls) ry ->
      attr rc price_field = Some vc -> attr rm price_field = Some vm ->
      attr rs price_field = Some vs -> attr ry price_field = Some vy ->
      is_zero vm = false -> is_zero vs = false -> is_zero vy = false ->
      get_data_table objects today cls price_field
      = Return {| current := vc;
                  month_ago := ((vc - vm) / vm * num 100)%num;
                  start_year := ((vc - vs) / vs * num 100)%num;
                  year_ago := ((vc - vy) / vy * num 100)%num |})
  /\ percent_change (T := Qc) (num 120) (num 100) = Return (num 20)
  /\ percent_change 120%float 100%float = Return 20%float.
Proof.
  split; [|split].
  - intros T number objects today cls price_field rc rm rs ry vc vm vs vy
      Hord Hc Hm Hs Hy Hvc Hvm Hvs Hvy Hnm Hns Hny.
    unfold get_data_table, QuerySet.date__lte, QuerySet.date__year__gte,
      QuerySet.date__year__lte.
    rewrite (last_filter_latest _ _ _ rc (fun x => Z.leb_le (date_of x) today) Hord Hc).
    rewrite (last_filter_latest _ _ _ rm
               (fun x => Z.leb_le (date_of x) (minus_relativedelta 0 1 today)) Hord Hm).
    rewrite (last_filter_latest _ _ _ ry
               (fun x => Z.leb_le (date_of x) (minus_relativedelta 1 0 today)) Hord Hy).
    assert (Hstart :
      match QuerySet.first (filter (fun r => year_of today <=? year_of (date_of r))
                              (objects cls)) with
      | Some r => Some r
      | None => QuerySet.last (filter (fun r => year_of (date_of r) <=? year_of today)
                                 (objects cls))
      end = Some rs).
    { destruct Hs as [Hs|[Hnone Hs]].
      - now rewrite (first_filter_earliest _ _ _ rs
                       (fun x => Z.leb_le (year_of today) (year_of (date_of x))) Hord Hs).
      - rewrite (filter_none _ _ _
                   (fun x => Z.leb_le (year_of today) (year_of (date_of x))) Hnone).
        cbn [QuerySet.first hd_error].
        exact (last_filter_latest _ _ _ rs
                 (fun x => Z.leb_le (year_of (date_of x)) (year_of today)) Hord Hs). }
    rewrite Hstart.
    rewrite (getattr_attr _ _ _ Hvc), (getattr_attr _ _ _ Hvm),
      (getattr_attr _ _ _ Hvs), (getattr_attr _ _ _ Hvy).
    cbn [bind]. rewrite !percent_change_nonzero by assumption. reflexivity.
  - qc_eq.
  - reflexivity.
Qed.

Lemma get_data_table_deltas_witness :
  get_data_table (Sample.year_db Qc) Sample.today_2026 Balka "avg_uah"
  = Return {| current := num 120;
              month_ago := ((num 120 - num 100) / num 100 * num 100)%num;
              start_year := ((num 120 - num 90) / num 90 * num 100)%num;
              year_ago := ((num 120 - num 80) / num 80 * num 100)%num |}.
Proof.
  apply (proj1 get_data_table_deltas Qc _
           (Sample.year_db Qc) Sample.today_2026 Balka "avg_uah"%string
           (Sample.priced Qc (ymd2ord 2026 11 1) 120)
           (Sample.priced Qc (ymd2ord 2026 9 30) 100)
           (Sample.priced Qc (ymd2ord 2026 1 10) 90)
           (Sample.priced Qc (ymd2ord 2025 10 1) 80)).
  - reflexivity.
  - by_rows.
  - by_rows.
  - left. by_rows.
  - by_rows.
  - reflexivity.
  - reflexivity.
  - reflexivity.
  - reflexivity.
  - reflexivity.
  - reflexivity.
  - reflexivity.
Defined.

(** C6, as stated, fails: on an empty table no anchor has a row, and the
    exception raised is not a [MissingBaselineError]. *)
Lemma missing_anchor_error_class :
  (Sample.empty_db Qc) Balka = []
  /\ ~ raises_named
         (get_data_table (Sample.empty_db Qc) Sample.today_2026 Balka "avg_uah")
         "MissingBaselineError".
Proof.
  split; [reflexivity|].
  intros [e [_ He]]. destruct e; discriminate He.
Qed.

(** C6, amended. [get_data_table] fails with an [AttributeError], raised
    by the attribute access on the missing row, whenever one of the four
    anchor lookups (current, month ago, start of year with its fallback,
    year ago) finds no row. *)
Theorem get_data_table_missing_anchor {T : Type} {number : Number T}
  (objects : database T) (today : date) (cls : model) (price_field : string) :
  none_such (fun r => date_of r <= today) (objects cls)
  \/ none_such (fun r => date_of r <= minus_relativedelta 0 1 today) (objects cls)
  \/ (none_such (fun r => year_of today <= year_of (date_of r)) (objects cls)
      /\ none_such (fun r => year_of (date_of r) <= year_of today) (objects cls))
  \/ none_such (fun r => date_of r <= minus_relativedelta 1 0 today) (objects cls) ->
  get_data_table objects today cls price_field = Raise AttributeError.
Proof.
  intro H. unfold get_data_table. apply get_data_table_anchors.
  unfold QuerySet.date__lte, QuerySet.date__year__gte, QuerySet.date__year__lte.
  destruct H as [H|[H|[[H1 H2]|H]]].
  - left. now rewrite (filter_none _ _ _ (fun x => Z.leb_le (date_of x) today) H).
  - right. left.
    now rewrite (filter_none _ _ _
                   (fun x => Z.leb_le (date_of x) (minus_relativedelta 0 1 today)) H).
  - right. right. left.
    rewrite (filter_none _ _ _
               (fun x => Z.leb_le (year_of today) (year_of (date_of x))) H1).
    now rewrite (filter_none _ _ _
                   (fun x => Z.leb_le (year_of (date_of x)) (year_of today)) H2).
  - right. right. right.
    now rewrite (filter_none _ _ _
                   (fun x => Z.leb_le (date_of x) (minus_relativedelta 1 0 today)) H).
Qed.

Lemma get_data_table_missing_anchor_witness :
  get_data_table (Sample.beam_db Qc) (Sample.jan 2) Balka "avg_uah" = Raise AttributeError.
Proof.
  apply get_data_table_missing_anchor. right. left.
  intros r Hin. simpl in Hin.
  repeat (destruct Hin as [Hin|Hin]; [subst r|]); try contradiction;
    vm_compute; intro H; now apply H.
Defined.

(** ** [CalculateMixin.grahp_specification_data] *)

Section SpecificationFacts.

Context {T : Type} {number : Number T}.
Variable py_int : string -> result Z.

Variable objects : database T.
Variables (first_date last_date : date).
Variable calculating_field : option string.
Variable kwargs : list (string * spec_entry T).

(** The caching loop never assigns [standart_value], and leaves
    [standard_value] unbound unless it was bound before. *)
Lemma cache_step_locals (l l' : locals) (graph_key : string) :
  cache_step py_int objects first_date last_date calculating_field kwargs l graph_key = Return l' ->
  standart_value l' = standart_value l
  /\ (standard_value l = None ->
      standard_value l' = None
      /\ exists code klass,
           py_int graph_key = Return code
           /\ dict_get Z.eqb code get_class_mapping = Some klass
           /\ period_data_of objects first_date last_date klass = []
           /\ cached_data l' = dict_set String.eqb graph_key [] (cached_data l)).
Proof.
  unfold cache_step.
  destruct (py_int graph_key) as [code|] eqn:Eint; [|discriminate]. cbn [bind].
  destruct (dict_get Z.eqb code get_class_mapping) as [klass|] eqn:Emap; [|discriminate].
  cbn [bind or_raise].
  destruct (period_data_of objects first_date last_date klass) as [|r pool] eqn:Epool.
  - cbn [QuerySet.exists_ negb standard_value standart_value cached_data].
    intros [= <-]. cbn [standard_value standart_value cached_data].
    split; [reflexivity|]. intro Hn. split; [exact Hn|].
    exists code, klass. auto.
  - cbn [QuerySet.exists_ negb standard_value].
    destruct (standard_value l) as [old|]; [|discriminate]. cbn [bind or_raise].
    destruct (getattr _ _); [|discriminate]. cbn [bind].
    destruct (dict_get String.eqb graph_key kwargs); [|discriminate]. cbn.
    intros [= <-]. cbn. split; [reflexivity|]. discriminate.
Qed.

Lemma cache_loop_locals (keys : list string) :
  forall l l',
    cache_loop py_int objects first_date last_date calculating_field kwargs keys l = Return l' ->
    standart_value l' = standart_value l
    /\ (standard_value l = None -> Forall (fun kv => snd kv = []) (cached_data l) ->
        Forall (fun kv => snd kv = []) (cached_data l')).
Proof.
  induction keys as [|k keys IH]; intros l l'.
  - intros [= <-]. auto.
  - cbn [cache_loop].
    destruct (cache_step py_int objects first_date last_date calculating_field kwargs l k)
      as [l1|] eqn:E1; [|discriminate].
    cbn [bind]. intro H. destruct (cache_step_locals _ _ _ E1) as [Hs Hn].
    destruct (IH _ _ H) as [Hs' Hn']. split; [congruence|].
    intros Hnone Hall. destruct (Hn Hnone) as (Hnone1 & code & klass & _ & _ & _ & Hc).
    apply Hn'; [exact Hnone1|]. rewrite Hc. clear - Hall.
    induction (cached_data l) as [|[k' v'] d IHd]; cbn.
    + now repeat constructor.
    + inversion Hall; subst. destruct (String.eqb k k'); constructor; auto.
Qed.

(** A category with rows in its pool stops the caching loop at the read
    of the unbound [standard_value]. *)
Lemma cache_step_unbound (l : locals) (graph_key : string) (code : Z) (klass : model) :
  py_int graph_key = Return code ->
  dict_get Z.eqb code get_class_mapping = Some klass ->
  period_data_of objects first_date last_date klass <> [] ->
  standard_value l = None ->
  cache_step py_int objects first_date last_date calculating_field kwargs l graph_key
  = Raise UnboundLocalError.
Proof.
  intros Hint Hmap Hpool Hnone. unfold cache_step.
  rewrite Hint. cbn [bind]. rewrite Hmap. cbn [bind or_raise].
  destruct (period_data_of objects first_date last_date klass); [contradiction|].
  cbn [QuerySet.exists_ negb standard_value]. now rewrite Hnone.
Qed.

End SpecificationFacts.

Section SpecificationLoop.

Context {T : Type} {number : Number T}.

Variable calculating_field : option string.
Variable kwargs : list (string * spec_entry T).

(** Pools without rows add nothing to the sum of a date. *)
Lemma summ_loop_empty_pools (cached : list (string * QuerySet.t T)) (step_date : date) :
  Forall (fun kv => snd kv = []) cached ->
  forall keys summ,
    incl keys (dict_keys cached) ->
    summ_loop cached calculating_field kwargs step_date keys summ = Return summ.
Proof.
  intros Hall keys. induction keys as [|k keys IH]; intros summ Hincl; [reflexivity|].
  cbn [summ_loop].
  assert (Hget : dict_get String.eqb k cached = Some []).
  { assert (Hk : In k (dict_keys cached)) by (apply Hincl; now left).
    clear - Hall Hk. induction cached as [|[k' v'] d IHd]; [contradiction|].
    inversion Hall as [|? ? Hv Hd]; subst. cbn in Hv. subst v'. cbn.
    destruct (String.eqb k k') eqn:E; [reflexivity|].
    destruct Hk as [Hk|Hk]; [|now apply IHd].
    cbn in Hk. subst k'. now rewrite String.eqb_refl in E. }
  rewrite Hget. cbn. apply IH. intros x Hx. apply Hincl. now right.
Qed.

(** The division of every date is by [standart_value]. *)
Lemma specification_loop_zero (l : locals) (dates : list date) (acc : list T) :
  standart_value l = (num 0) -> dates <> [] ->
  exists e, specification_loop l calculating_field kwargs dates acc = Raise e.
Proof.
  intros Hz Hne. destruct dates as [|d dates]; [contradiction|].
  cbn [specification_loop].
  destruct (summ_loop _ _ _ _ _ _) as [summ|e]; [|now exists e].
  cbn [bind]. rewrite Hz, py_div_zero. now exists ZeroDivisionError.
Qed.

End SpecificationLoop.

(** X18. On two dates or more the function never comes to its [return]:
    it raises, because the divisor of every date is the [standart_value]
    bound to zero. *)
Lemma grahp_specification_data_raises {T : Type} {number : Number T}
  (py_int : string -> result Z) (objects : database T) (dates : list date)
  (currency : option currency_arg) (kwargs : list (string * spec_entry T)) :
  (2 <= List.length dates)%nat ->
  exists e, grahp_specification_data py_int objects dates currency kwargs = Raise e.
Proof.
  intro Hlen. unfold grahp_specification_data. rewrite (long_enough _ Hlen).
  destruct (calculating_field_of py_int currency) as [f|e]; [|now exists e].
  cbn [bind].
  destruct (cache_loop _ _ _ _ _ _ _ _) as [l|e] eqn:E; [|now exists e].
  cbn [bind]. apply cache_loop_locals in E as [Hs _]. cbn in Hs.
  destruct (specification_loop_zero f kwargs l dates [] Hs) as [e He].
  - intros ->. cbn in Hlen. lia.
  - exists e. now rewrite He.
Qed.

(** X19. When no category of the specification has a row at or before
    the last date, the denominator is the empty sum and the division
    raises [ZeroDivisionError], once [int(currency)] has not raised. *)
Lemma grahp_specification_data_no_rows {T : Type} {number : Number T}
  (py_int : string -> result Z) (objects : database T) (dates : list date)
  (currency : option currency_arg) (kwargs : list (string * spec_entry T)) :
  (2 <= List.length dates)%nat ->
  (forall k, In k (dict_keys kwargs) ->
     exists code klass,
       py_int k = Return code
       /\ dict_get Z.eqb code get_class_mapping = Some klass
       /\ period_data_of objects (hd 0 dates) (List.last dates 0) klass = []) ->
  grahp_specification_data py_int objects dates currency kwargs
  = (_ <- calculating_field_of py_int currency ;; Raise ZeroDivisionError).
Proof.
  intros Hlen Hkeys. unfold grahp_specification_data. rewrite (long_enough _ Hlen).
  destruct (calculating_field_of py_int currency) as [f|e]; [|reflexivity].
  cbn [bind].
  set (l0 := {| cached_data := []; standart_value := (num 0); standard_value := None |}).
  assert (Hloop : exists l,
             cache_loop py_int objects (hd 0 dates) (List.last dates 0) f kwargs
               (dict_keys kwargs) l0 = Return l).
  { assert (Hn0 : standard_value l0 = None) by reflexivity.
    revert Hkeys Hn0. generalize l0. generalize (dict_keys kwargs).
    intro keys. induction keys as [|k keys IH]; intros l Hkeys Hn; [now exists l|].
    destruct (Hkeys k (or_introl eq_refl)) as (code & klass & Hint & Hmap & Hpool).
    cbn [cache_loop]. unfold cache_step at 1.
    rewrite Hint. cbn [bind]. rewrite Hmap. cbn [bind or_raise]. rewrite Hpool.
    cbn [QuerySet.exists_ negb bind]. apply IH; [|exact Hn].
    intros x Hx. apply Hkeys. now right. }
  destruct Hloop as [l Hl]. rewrite Hl. cbn [bind].
  destruct (cache_loop_locals _ _ _ _ _ _ _ _ _ Hl) as [Hs Hall].
  cbn in Hs. specialize (Hall eq_refl (Forall_nil _)).
  destruct dates as [|d dates]; [cbn in Hlen; lia|].
  cbn [specification_loop].
  rewrite (summ_loop_empty_pools f kwargs _ d Hall) by apply incl_refl.
  cbn [bind]. now rewrite Hs, py_div_zero.
Qed.

(** X20. When every key names a product category and one of them has
    rows in its pool, the function stops at line 365 with
    [UnboundLocalError], once [int(currency)] has not raised. *)
Lemma grahp_specification_data_unbound {T : Type} {number : Number T}
  (py_int : string -> result Z) (objects : database T) (dates : list date)
  (currency : option currency_arg) (kwargs : list (string * spec_entry T)) :
  (2 <= List.length dates)%nat ->
  (forall k, In k (dict_keys kwargs) ->
     exists code klass,
       py_int k = Return code /\ dict_get Z.eqb code get_class_mapping = Some klass) ->
  (exists k code klass,
     In k (dict_keys kwargs)
     /\ py_int k = Return code
     /\ dict_get Z.eqb code get_class_mapping = Some klass
     /\ period_data_of objects (hd 0 dates) (List.last dates 0) klass <> []) ->
  grahp_specification_data py_int objects dates currency kwargs
  = (_ <- calculating_field_of py_int currency ;; Raise UnboundLocalError).
Proof.
  intros Hlen Hkeys Hsome. unfold grahp_specification_data. rewrite (long_enough _ Hlen).
  destruct (calculating_field_of py_int currency) as [f|e]; [|reflexivity].
  cbn [bind].
  set (l0 := {| cached_data := []; standart_value := (num 0); standard_value := None |}).
  assert (Hloop :
    cache_loop py_int objects (hd 0 dates) (List.last dates 0) f kwargs (dict_keys kwargs) l0
    = Raise UnboundLocalError); [|now rewrite Hloop].
  assert (Hn0 : standard_value l0 = None) by reflexivity.
  revert Hkeys Hsome Hn0. generalize l0. generalize (dict_keys kwargs).
  intro keys. induction keys as [|k keys IH]; intros l Hkeys Hsome Hn.
  - destruct Hsome as (k & _ & _ & [] & _).
  - cbn [cache_loop].
    destruct (Hkeys k (or_introl eq_refl)) as (code & klass & Hint & Hmap).
    destruct (period_data_of objects (hd 0 dates) (List.last dates 0) klass)
      as [|r pool] eqn:Epool.
    + destruct (cache_step py_int objects (hd 0 dates) (List.last dates 0) f kwargs l k)
        as [l1|e] eqn:E1.
      * cbn [bind]. destruct (cache_step_locals _ _ _ _ _ _ _ _ _ E1) as [_ Hn1].
        destruct (Hn1 Hn) as [Hnone1 _]. apply IH; auto.
        -- intros x Hx. apply Hkeys. now right.
        -- destruct Hsome as (k' & code' & klass' & [<-|Hin] & Hint' & Hmap' & Hpool').
           ++ rewrite Hint in Hint'. injection Hint' as <-.
              rewrite Hmap in Hmap'. injection Hmap' as <-. now rewrite Epool in Hpool'.
           ++ now exists k', code', klass'.
      * exfalso. revert E1. unfold cache_step.
        rewrite Hint. cbn [bind]. rewrite Hmap. cbn [bind or_raise]. rewrite Epool.
        cbn. discriminate.
    + rewrite (cache_step_unbound _ _ _ _ _ _ _ _ code klass); auto.
      rewrite Epool. discriminate.
Qed.

(** X21. The row that stands for a date in a pool ordered by date follows
    the fallback chain: the row of the date, else the most recent earlier
    one, else the oldest later one; no row only when the pool is empty. *)
Lemma data_step_of_chain {T : Type} (pool : QuerySet.t T) (d : date) :
  ordered_by_date pool = true -> fallback_chain pool d (data_step_of pool d).
Proof.
  intro Hord. unfold data_step_of, QuerySet.date_eq, QuerySet.date__lte, QuerySet.date__gte.
  destruct (QuerySet.first (filter (fun r => date_of r =? d) pool)) as [r|] eqn:E1.
  { apply first_in, filter_In in E1 as [Hin Hd]. apply Z.eqb_eq in Hd.
    split; [exact Hin | now left]. }
  apply first_none in E1.
  pose proof (none_of_filter (fun x => date_of x = d) _ pool
                (fun x => Z.eqb_eq (date_of x) d) E1) as Hnone.
  destruct (QuerySet.last (filter (fun r => date_of r <=? d) pool)) as [r|] eqn:E2.
  { pose proof (latest_of_last_filter (fun x => date_of x <= d) _ pool r
                  (fun x => Z.leb_le (date_of x) d) Hord E2) as Hl.
    split; [apply Hl | right; left; now split]. }
  apply last_none in E2.
  pose proof (none_of_filter (fun x => date_of x <= d) _ pool
                (fun x => Z.leb_le (date_of x) d) E2) as Hbefore.
  destruct (QuerySet.first (filter (fun r => d <=? date_of r) pool)) as [r|] eqn:E3.
  { pose proof (earliest_of_first_filter (fun x => d <= date_of x) _ pool r
                  (fun x => Z.leb_le d (date_of x)) Hord E3) as He.
    split; [apply He | right; right; now split]. }
  apply first_none in E3.
  pose proof (none_of_filter (fun x => d <= date_of x) _ pool
                (fun x => Z.leb_le d (date_of x)) E3) as Hafter.
  cbn. destruct pool as [|r pool]; [reflexivity|]. exfalso.
  destruct (Z.le_ge_cases (date_of r) d) as [H|H].
  - exact (Hbefore r (or_introl eq_refl) H).
  - exact (Hafter r (or_introl eq_refl) H).
Qed.

(** C1. The code does not return the composite series the claim
    describes.  With weights beam 2 and corner 1, beam at 50 then 60 and
    corner at 25, the sum of the second date is 60*2 + 25*1 = 145 and the
    claim gives 145*100/125 = 116 for it; the function raises
    [UnboundLocalError] instead, at the first category that has rows:
    line 365 adds to [standard_value], a name never bound, where line 351
    bound [standart_value]. *)
Theorem grahp_specification_data_example :
  summ_loop
    [("3"%string, period_data_of (Sample.beam_corner_db Qc) (Sample.jan 1) (Sample.jan 2) Balka);
     ("5"%string, period_data_of (Sample.beam_corner_db Qc) (Sample.jan 1) (Sample.jan 2) Ugolok)]
    (Some "avg_uah"%string) (Sample.beam_corner_spec Qc) (Sample.jan 2)
    ["3"%string; "5"%string] (num 0)
  = Return (num 145)
  /\ grahp_specification_data Sample.decimal_int (Sample.beam_corner_db Qc)
      [Sample.jan 1; Sample.jan 2] None
       (Sample.beam_corner_spec Qc)
     = Raise UnboundLocalError.
Proof.
  split; [qc_eq | reflexivity].
Qed.

(** C7. A zero denominator made of rows does not reach the division.
    With the single category beam of weight 1 whose first row is 0, the
    function raises [UnboundLocalError] at line 365 and not the
    [ZeroDivisionError] of the division by the denominator. *)
Theorem grahp_specification_data_zero_denominator :
  (exists r,
      QuerySet.first (period_data_of (Sample.zero_db Qc) (Sample.jan 1) (Sample.jan 2) Balka)
      = Some r
      /\ attr r "avg_uah" = Some (num 0))
  /\ grahp_specification_data Sample.decimal_int (Sample.zero_db Qc)
      [Sample.jan 1; Sample.jan 2] None
       (Sample.beam_only_spec Qc)
     = Raise UnboundLocalError.
Proof.
  split; [|reflexivity].
  exists (Sample.priced Qc (Sample.jan 1) 0). split; reflexivity.
Qed.

(** C2. The code does not return the series of [get_data_charts] for a
    single category of weight 1.  With beam rows 100 on 1 January and 110
    on 3 January, the dates 1 to 3 January and the specification beam 1,
    [get_data_charts] returns [100, 100, 110]; the first row of the pool
    of [grahp_specification_data] is the row of 1 January, 100, and the
    weighted sums it forms for the three dates are 100, 100 and 110, which
    scaled by 100 over that first row are the same series; the function
    raises [UnboundLocalError] instead, at line 365, where it adds to
    [standard_value], a name never bound. *)
Theorem single_category_example :
  let dates := [Sample.jan 1; Sample.jan 2; Sample.jan 3] in
  let pool := period_data_of (Sample.beam_db Qc) (Sample.jan 1) (Sample.jan 3) Balka in
  get_data_charts Sample.decimal_int (Sample.beam_db Qc) Balka dates None
  = Return (Some [num 100; num 100; num 110])
  /\ QuerySet.first pool = Some (Sample.priced Qc (Sample.jan 1) 100)
  /\ map (fun d => summ_loop [("3"%string, pool)] (Some "avg_uah"%string)
                     (Sample.beam_only_spec Qc) d ["3"%string] (num 0)) dates
     = [Return (num 100); Return (num 100); Return (num 110)]
  /\ grahp_specification_data Sample.decimal_int (Sample.beam_db Qc) dates None
       (Sample.beam_only_spec Qc)
     = Raise UnboundLocalError
  /\ grahp_specification_data Sample.decimal_int (Sample.beam_db float) dates None
       (Sample.beam_only_spec float)
     = Raise UnboundLocalError.
Proof.
  cbv zeta. split; [qc_eq|]. split; [reflexivity|]. split; [|split; reflexivity].
  cbn [map]. repeat (apply f_equal2; [qc_eq|]). reflexivity.
Qed.

(** Where the two functions part by design: rows on 1, 3 and 5 January,
    dates from 2 to 5 January.  The composite takes the row of 3 January
    both as the first row of its pool and, on 4 January, as the nearest
    earlier row; [get_data_charts] takes the row of 1 January as baseline
    and uses that baseline again on 4 January. *)
Lemma single_category_fallbacks_differ :
  let pool := period_data_of (Sample.sparse_db Qc) (Sample.jan 2) (Sample.jan 5) Balka in
  QuerySet.first pool = Some (Sample.priced Qc (Sample.jan 3) 110)
  /\ data_step_of pool (Sample.jan 4) = Some (Sample.priced Qc (Sample.jan 3) 110)
  /\ QuerySet.last (QuerySet.date__lte (Sample.jan 2) (Sample.sparse_db Qc Balka))
     = Some (Sample.priced Qc (Sample.jan 1) 100)
  /\ chart_step
       (QuerySet.date__range (Sample.jan 2) (Sample.jan 5) (Sample.sparse_db Qc Balka))
       (Some "avg_uah"%string) (num 100) (Sample.jan 4)
     = Return (num 100).
Proof.
  repeat split; try reflexivity. qc_eq.
Qed.

(** * Further properties of the file *)

(** ** [get_file_format] and [get_file_path] *)

Section Texts.

Local Open Scope string_scope.

Lemma append_assoc (a b c : string) : (a ++ b) ++ c = a ++ (b ++ c).
Proof. induction a as [|x a IH]; cbn; [reflexivity | now rewrite IH]. Qed.

Lemma append_length (a b : string) :
  String.length (a ++ b) = (String.length a + String.length b)%nat.
Proof. induction a as [|x a IH]; cbn; [reflexivity | now rewrite IH]. Qed.

Lemma append_cancel_r (c : string) :
  forall a b, a ++ c = b ++ c -> a = b.
Proof.
  induction a as [|x a IH]; intros [|y b] H; cbn in H.
  - reflexivity.
  - apply (f_equal String.length) in H. cbn in H. rewrite append_length in H. lia.
  - apply (f_equal String.length) in H. cbn in H. rewrite append_length in H. lia.
  - injection H as -> H. f_equal. now apply IH.
Qed.

Lemma append_cancel_l (a : string) : forall b c, a ++ b = a ++ c -> b = c.
Proof.
  induction a as [|x a IH]; intros b c H; cbn in H; [exact H|].
  injection H as H. now apply IH.
Qed.

Lemma str_split_nonempty (sep : ascii) (s : string) : str_split sep s <> [].
Proof.
  destruct s as [|c s]; cbn; [discriminate|].
  destruct (Ascii.eqb c sep); [discriminate|].
  destruct (str_split sep s); discriminate.
Qed.

(** No piece contains the separator. *)
Lemma str_split_pieces (sep : ascii) (s : string) :
  Forall (fun piece => str_contains sep piece = false) (str_split sep s).
Proof.
  induction s as [|c s IH]; cbn.
  - now repeat constructor.
  - destruct (Ascii.eqb c sep) eqn:E.
    + now constructor.
    + destruct (str_split sep s) as [|piece pieces].
      * constructor; [cbn; now rewrite E | constructor].
      * inversion IH as [|? ? Hp Hps]; subst.
        constructor; [|assumption]. cbn. now rewrite E.
Qed.

Lemma str_split_whole (sep : ascii) (s : string) :
  str_contains sep s = false -> str_split sep s = [s].
Proof.
  induction s as [|c s IH]; cbn; [reflexivity|].
  intro H. apply orb_false_iff in H as [Hc Hs]. rewrite Hc, (IH Hs). reflexivity.
Qed.

(** Splitting around one occurrence of the separator. *)
Lemma str_split_app (sep : ascii) (a b : string) :
  str_split sep (a ++ String sep b) = (str_split sep a ++ str_split sep b)%list.
Proof.
  induction a as [|c a IH]; cbn.
  - now rewrite Ascii.eqb_refl.
  - destruct (Ascii.eqb c sep); [now rewrite IH|].
    rewrite IH. destruct (str_split sep a) as [|piece pieces] eqn:E; [|reflexivity].
    now destruct (str_split_nonempty sep a).
Qed.

Lemma last_app_nonempty {A : Type} (l1 l2 : list A) (d : A) :
  l2 <> [] -> List.last (l1 ++ l2) d = List.last l2 d.
Proof.
  intro H. induction l1 as [|x l1 IH]; [reflexivity|].
  change (List.last (x :: (l1 ++ l2)%list) d = List.last l2 d).
  destruct (l1 ++ l2)%list eqn:E.
  - apply app_eq_nil in E as [_ E]. contradiction.
  - exact IH.
Qed.

(** A text has no separator, or it ends with a separator followed by a
    text without one. *)
Lemma last_piece (sep : ascii) (s : string) :
  str_contains sep s = false
  \/ exists a l, s = a ++ String sep l /\ str_contains sep l = false.
Proof.
  induction s as [|c s IH]; [now left|].
  destruct IH as [H|(a & l & -> & Hl)].
  - cbn. destruct (Ascii.eqb c sep) eqn:E; [|now left].
    right. apply Ascii.eqb_eq in E. subst c. now exists "", s.
  - right. now exists (String c a), l.
Qed.

Lemma get_file_format_app (base ext : string) :
  get_file_format (base ++ "." ++ ext) = get_file_format ext.
Proof.
  unfold get_file_format. cbn [append]. rewrite str_split_app.
  apply last_app_nonempty, str_split_nonempty.
Qed.

Lemma get_file_format_whole (s : string) :
  str_contains "." s = false -> get_file_format s = s.
Proof.
  intro H. unfold get_file_format. now rewrite (str_split_whole _ _ H).
Qed.

Lemma get_file_format_no_dot (s : string) :
  str_contains "." (get_file_format s) = false.
Proof.
  destruct (last_piece "." s) as [H|(a & l & -> & Hl)].
  - now rewrite (get_file_format_whole _ H).
  - change (a ++ String "." l) with (a ++ "." ++ l).
    now rewrite get_file_format_app, (get_file_format_whole _ Hl).
Qed.

Lemma get_file_format_of_path (lower : string -> string)
  (uuid4 class_name filename : string) :
  get_file_format (get_file_path lower uuid4 class_name filename)
  = get_file_format filename.
Proof.
  unfold get_file_path.
  change (lower class_name ++ "/" ++ uuid4 ++ "." ++ get_file_format filename)
    with (lower class_name ++ ("/" ++ uuid4) ++ "." ++ get_file_format filename).
  rewrite <- append_assoc, get_file_format_app.
  apply get_file_format_whole, get_file_format_no_dot.
Qed.

End Texts.

(** X1. The format of a file name holds no dot.  It is the whole name
    when the name has no dot, and otherwise the name is some text, a dot
    and the format. *)
Theorem get_file_format_suffix (filename : string) :
  str_contains "." (get_file_format filename) = false
  /\ ((str_contains "." filename = false /\ get_file_format filename = filename)
      \/ exists base,
           filename = (base ++ "." ++ get_file_format filename)%string).
Proof.
  destruct (last_piece "." filename) as [H|(a & l & -> & Hl)].
  - rewrite (get_file_format_whole _ H). auto.
  - change (a ++ String "." l)%string with (a ++ "." ++ l)%string.
    rewrite get_file_format_app, (get_file_format_whole _ Hl).
    split; [exact Hl|]. right. now exists a.
Qed.

(** X2. When the text after the last dot holds no dot itself, that text
    is the format, whatever comes before the dot. *)
Theorem get_file_format_extension (base ext : string) :
  str_contains "." ext = false ->
  get_file_format (base ++ "." ++ ext) = ext.
Proof.
  intro H. now rewrite get_file_format_app, get_file_format_whole.
Qed.

Lemma get_file_format_extension_witness :
  get_file_format ("archive.tar" ++ "." ++ "gz") = "gz"%string.
Proof.
  apply get_file_format_extension. reflexivity.
Defined.

(** X3. The generated path keeps the format of the uploaded file: the
    format of the path is the format of the file name, whatever the
    identifier drawn, the class and the lower-casing of its name. *)
Theorem get_file_path_keeps_format (lower : string -> string)
  (uuid4 class_name filename : string) :
  get_file_format (get_file_path lower uuid4 class_name filename)
  = get_file_format filename.
Proof. apply get_file_format_of_path. Qed.

(** X4. Two generated paths of one class are equal only if the
    identifiers drawn are equal and the file names have the same format:
    different identifiers never give the same path. *)
Theorem get_file_path_injective (lower : string -> string)
  (u1 u2 class_name f1 f2 : string) :
  get_file_path lower u1 class_name f1 = get_file_path lower u2 class_name f2 ->
  u1 = u2 /\ get_file_format f1 = get_file_format f2.
Proof.
  intro H.
  assert (He : get_file_format f1 = get_file_format f2).
  { apply (f_equal get_file_format) in H. now rewrite !get_file_format_of_path in H. }
  split; [|exact He].
  unfold get_file_path in H. rewrite He in H.
  apply append_cancel_l in H. cbn [append] in H. injection H as H.
  now apply append_cancel_r in H.
Qed.

Lemma get_file_path_injective_witness :
  ("a1b2" = "a1b2")%string /\ get_file_format "x.csv" = get_file_format "y.old.csv".
Proof.
  apply (get_file_path_injective Sample.str_lower
           "a1b2" "a1b2" "CSVFile" "x.csv" "y.old.csv")%string.
  reflexivity.
Defined.

(** ** The registries of [CSVFile] *)

(** X5. [get_types_title_dict] raises no [KeyError]: every file type has
    a size, and the dictionary returned gives each file type, in the order
    of [FILE_TYPES], its title followed by a space and its size. *)
Theorem get_types_title_dict_total :
  exists types_dict,
    get_types_title_dict = Return types_dict
    /\ dict_keys types_dict = map fst FILE_TYPES
    /\ forall code name,
         In (code, name) FILE_TYPES ->
         exists size,
           dict_get Z.eqb code TYPE_SIZES = Some size
           /\ dict_get Z.eqb code types_dict = Some (name ++ " " ++ size)%string.
Proof.
  eexists. split; [reflexivity|]. split; [reflexivity|].
  intros code name Hin. cbn in Hin.
  repeat (destruct Hin as [Hin|Hin]; [injection Hin as <- <-; eexists; split; reflexivity|]).
  contradiction.
Qed.

Lemma get_types_title_dict_total_witness :
  exists types_dict,
    get_types_title_dict = Return types_dict
    /\ dict_get Z.eqb TYPE_BALKA types_dict = Some "Beam №20"%string.
Proof.
  destruct get_types_title_dict_total as (types_dict & Hd & _ & Hall).
  destruct (Hall TYPE_BALKA "Beam"%string) as (size & Hsize & Htitle).
  - cbn. tauto.
  - exists types_dict. split; [exact Hd|].
    rewrite Htitle. injection Hsize as <-. reflexivity.
Defined.

(** X6. The graph types offered are the composite index and the six
    product categories of [get_class_mapping], under the names of
    [get_graph_names]; the excluded types are not offered, and
    [get_fields_for_table] has a field for exactly the product
    categories. *)
Theorem get_graph_types_registries :
  map Choice.code get_graph_types = TYPE_INDEX :: map fst get_class_mapping
  /\ map fst get_fields_for_table = map fst get_class_mapping
  /\ (forall t, In t get_graph_types ->
        dict_get Z.eqb (Choice.code t) get_graph_names = Some (Choice.title t))
  /\ (forall t, In t get_graph_types ->
        Choice.code t <> TYPE_FINAL_METHOD
        /\ Choice.code t <> TYPE_EXCHANGE_RATES
        /\ Choice.code t <> TYPE_SHARE_SPECIFICATIONS).
Proof.
  split; [reflexivity|]. split; [reflexivity|]. split.
  - intros t Hin. cbn in Hin.
    repeat (destruct Hin as [Hin|Hin]; [subst t; reflexivity|]). contradiction.
  - intros t Hin. cbn in Hin.
    repeat (destruct Hin as [Hin|Hin]; [subst t; repeat split; discriminate|]).
    contradiction.
Qed.

Lemma get_graph_types_registries_witness :
  dict_get Z.eqb TYPE_UGOLOK get_graph_names = Some "Corner"%string.
Proof.
  apply (proj1 (proj2 (proj2 get_graph_types_registries))
           {| Choice.code := TYPE_UGOLOK; Choice.title := "Corner" |}).
  cbn. tauto.
Defined.

(** X7. Every currency that [get_currencies] offers selects a value
    field, for the composite index as for the product categories: with
    such a currency the chart functions never meet a missing field
    name. *)
Theorem get_currencies_select_fields (py_int : string -> result Z)
  (c : Choice.t) (cls : model) :
  In c get_currencies ->
  exists name,
    selected_field py_int cls (Some (CurrencyInt (Choice.code c)))
    = Return (Some name).
Proof.
  intro Hin. cbn in Hin.
  repeat (destruct Hin as [Hin|Hin]; [subst c; destruct cls; eexists; reflexivity|]).
  contradiction.
Qed.

Lemma get_currencies_select_fields_witness :
  exists name,
    selected_field Sample.decimal_int CompositeIndex (Some (CurrencyInt USD))
    = Return (Some name).
Proof.
  apply (get_currencies_select_fields Sample.decimal_int
           {| Choice.code := USD; Choice.title := "Dollar" |}).
  cbn. tauto.
Defined.

(** ** More on [CSVFile.get_dates] *)

Section DateTexts.

Variable strptime : string -> result date.
Variable today : date.

Lemma get_dates_loop_result (fuel : nat) :
  forall (a b : date) (acc dates : list date),
    get_dates_loop fuel a b acc = Return (Some dates) -> dates = acc ++ date_span a b.
Proof.
  induction fuel as [|fuel IH]; intros a b acc dates; cbn [get_dates_loop].
  - destruct (a <=? b) eqn:E; [discriminate|]. intros [= <-].
    apply Z.leb_gt in E. now rewrite date_span_empty, app_nil_r.
  - destruct (a <=? b) eqn:E.
    + unfold plus_days, date_of_ordinal.
      destruct ((MINORDINAL <=? a + 1) && (a + 1 <=? MAXORDINAL)); [|discriminate].
      cbn [bind]. intro H. apply IH in H. apply Z.leb_le in E.
      now rewrite H, (date_span_cons a b E), <- app_assoc.
    + intros [= <-]. apply Z.leb_gt in E. now rewrite date_span_empty, app_nil_r.
Qed.

Lemma date_span_ascending (n : nat) :
  forall a b, Z.to_nat (b - a + 1) = n -> ascending (date_span a b) = true.
Proof.
  induction n as [|n IH]; intros a b Hn.
  - rewrite date_span_empty by lia. reflexivity.
  - rewrite date_span_cons by lia. cbn [ascending].
    apply andb_true_iff. split; [|apply IH; lia].
    apply forallb_forall. intros d Hd. apply date_span_in in Hd.
    apply Z.ltb_lt. lia.
Qed.

(** What [get_dates] returns is the span between the two dates it
    resolved. *)
Lemma get_dates_result (fuel : nat) (date_from date_to : option date_arg)
  (dates : list date) :
  get_dates strptime today fuel date_from date_to = Return (Some dates) ->
  exists a b, dates = date_span a b.
Proof.
  unfold get_dates.
  destruct (translate strptime date_from) as [f|]; [|discriminate]. cbn [bind].
  destruct (translate strptime date_to) as [t|]; [|discriminate]. cbn [bind].
  destruct (match f with Some d => Return d | None => _ end) as [a|]; [|discriminate].
  cbn [bind]. intro H. apply get_dates_loop_result in H. cbn [app] in H. eauto.
Qed.

End DateTexts.

(** X8. Textual dates.  A non-empty text that [strptime] rejects makes
    [get_dates] raise the error of [strptime]; a text it accepts counts
    as the date it reads, in either position; the empty text counts as a
    missing argument. *)
Theorem get_dates_text (strptime : string -> result date) (today : date)
  (fuel : nat) (s : string) (other : option date_arg) :
  s <> ""%string ->
  let run := get_dates strptime today fuel in
  (forall e, strptime s = Raise e -> run (Some (DateStr s)) other = Raise e)
  /\ (forall d, strptime s = Return d ->
        run (Some (DateStr s)) other = run (Some (DateObj d)) other
        /\ run other (Some (DateStr s)) = run other (Some (DateObj d)))
  /\ run (Some (DateStr "")) other = run None other
  /\ run other (Some (DateStr "")) = run other None.
Proof.
  intros Hs run. apply String.eqb_neq in Hs.
  unfold run, get_dates. cbn [translate]. rewrite Hs.
  split; [|split; [|split; reflexivity]].
  - intros e ->. reflexivity.
  - intros d ->. split; reflexivity.
Qed.

Lemma get_dates_text_witness :
  get_dates Sample.no_strptime 20 8 (Some (DateStr "yesterday")) None = Raise ValueError.
Proof.
  apply (get_dates_text Sample.no_strptime 20 8 "yesterday" None);
    [discriminate | reflexivity].
Defined.

(** X9. Whatever its arguments, a list that [get_dates] returns is
    strictly ascending in steps of one day and lies within its window,
    which is what the chart functions expect of their dates. *)
Theorem get_dates_ascending (strptime : string -> result date) (today : date)
  (fuel : nat) (date_from date_to : option date_arg) (dates : list date) :
  get_dates strptime today fuel date_from date_to = Return (Some dates) ->
  ascending dates = true
  /\ in_window dates = true
  /\ forall i, (S i < List.length dates)%nat -> nth (S i) dates 0 = nth i dates 0 + 1.
Proof.
  intro H. apply get_dates_result in H as (a & b & ->). split; [|split].
  - now apply (date_span_ascending (Z.to_nat (b - a + 1))).
  - apply date_span_in_window.
  - intros i Hi. rewrite !date_span_nth by lia. lia.
Qed.

Lemma get_dates_ascending_witness :
  ascending [3; 4; 5; 6; 7; 8; 9; 10] = true
  /\ in_window [3; 4; 5; 6; 7; 8; 9; 10] = true
  /\ forall i, (S i < 8)%nat ->
       nth (S i) [3; 4; 5; 6; 7; 8; 9; 10] 0 = nth i [3; 4; 5; 6; 7; 8; 9; 10] 0 + 1.
Proof.
  apply (get_dates_ascending Sample.no_strptime 20 8 None (Some (DateObj 10))).
  reflexivity.
Defined.

(** X10. With no [date_from], a [date_to] from 0001-01-08 to 9999-12-30
    and enough iterations, [get_dates] returns eight dates, from seven
    days before [date_to] up to [date_to]: the default period is then
    never too short for a chart.  Outside these bounds it raises
    [OverflowError]: before 0001-01-08 at the default start, on
    9999-12-31 at the step past the last date. *)
Theorem get_dates_default_period (strptime : string -> result date) (today : date)
  (fuel : nat) (date_to : date) :
  (8 <= fuel)%nat ->
  valid_date date_to ->
  let run := get_dates strptime today fuel None (Some (DateObj date_to)) in
  (8 <= date_to < MAXORDINAL ->
   exists dates,
     run = Return (Some dates)
     /\ List.length dates = 8%nat
     /\ hd_error dates = Some (date_to - 7)
     /\ List.last dates 0 = date_to)
  /\ (date_to < 8 -> run = Raise OverflowError)
  /\ (date_to = MAXORDINAL -> run = Raise OverflowError).
Proof.
  intros Hfuel Hvalid run. unfold valid_date, MINORDINAL in Hvalid.
  unfold run, get_dates. cbn [translate bind]. unfold DEFAULT_DATE_DELTA_DAYS.
  split; [|split].
  - intro Hb. exists (date_span (date_to - 7) date_to).
    rewrite minus_days_valid by (unfold MINORDINAL; lia). cbn [bind].
    rewrite get_dates_loop_span by lia. rewrite app_nil_l.
    split; [reflexivity|]. split; [|split].
    + rewrite date_span_length. lia.
    + rewrite date_span_cons by lia. reflexivity.
    + apply date_span_last. lia.
  - intro Hb. rewrite minus_days_overflow by (unfold MINORDINAL; lia). reflexivity.
  - intros ->. rewrite minus_days_valid by (unfold MINORDINAL, MAXORDINAL; lia).
    cbn [bind]. apply get_dates_loop_overflow; unfold MAXORDINAL; lia.
Qed.

Lemma get_dates_default_period_witness :
  exists dates,
    get_dates Sample.no_strptime 20 8 None (Some (DateObj 10)) = Return (Some dates)
    /\ List.length dates = 8%nat
    /\ hd_error dates = Some (10 - 7)
    /\ List.last dates 0 = 10.
Proof.
  apply (get_dates_default_period Sample.no_strptime 20 8 10);
    [lia | unfold valid_date, MINORDINAL, MAXORDINAL; lia
    | unfold MAXORDINAL; lia].
Defined.

(** X11. A period of one day, or one whose end precedes its start, gives
    no chart: on the list that [get_dates] returns for it, both chart
    functions return [None], whatever the tables, the currency and the
    specification. *)
Theorem short_period_no_chart {T : Type} {number : Number T}
  (py_int : string -> result Z) (strptime : string -> result date) (today : date)
  (fuel : nat) (date_from date_to : date) (dates : list date)
  (objects : database T) (cls : model) (currency : option currency_arg)
  (kwargs : list (string * spec_entry T)) :
  date_to <= date_from ->
  get_dates strptime today fuel (Some (DateObj date_from)) (Some (DateObj date_to))
  = Return (Some dates) ->
  get_data_charts py_int objects cls dates currency = Return None
  /\ grahp_specification_data py_int objects dates currency kwargs = Return None.
Proof.
  intros Hle H. unfold get_dates in H. cbn [translate bind] in H.
  apply get_dates_loop_result in H. rewrite app_nil_l in H.
  subst dates.
  assert (Hshort : (List.length (date_span date_from date_to) <? 2)%nat = true).
  { apply Nat.ltb_lt. rewrite date_span_length. lia. }
  unfold get_data_charts, grahp_specification_data. now rewrite Hshort.
Qed.

Lemma short_period_no_chart_witness :
  get_data_charts Sample.decimal_int (Sample.beam_db Qc) Balka [5] None = Return None
  /\ grahp_specification_data Sample.decimal_int (Sample.beam_db Qc)
      [5] None (Sample.beam_only_spec Qc) = Return None.
Proof.
  apply (short_period_no_chart Sample.decimal_int Sample.no_strptime 20 3 5 5);
    [lia | reflexivity].
Defined.

(** ** More on [CalculateMixin.get_data_charts] *)

Section ChartShape.

Context {T : Type} {number : Number T}.

Variable data_from_db : QuerySet.t T.
Variable calculating_field : option string.
Variable standart_value : T.

Lemma getattr_raises (o : option (row T)) (f : option string) (e : exn) :
  getattr o f = Raise e -> e = AttributeError \/ e = TypeError.
Proof.
  unfold getattr. destruct f as [n|]; [|intros [= <-]; now right].
  destruct o as [r|]; [|intros [= <-]; now left].
  destruct (dict_get String.eqb n (attrs r)); [discriminate|].
  intros [= <-]. now left.
Qed.

Lemma chart_step_raises (d : date) (e : exn) :
  chart_step data_from_db calculating_field standart_value d = Raise e ->
  e = AttributeError \/ e = TypeError.
Proof.
  unfold chart_step.
  destruct (QuerySet.first (QuerySet.date_eq d data_from_db)) as [r|].
  - destruct (getattr (Some r) calculating_field) as [v|e'] eqn:E.
    + cbn [bind]. unfold py_div. destruct (is_zero standart_value); discriminate.
    + cbn [bind]. intros [= <-]. exact (getattr_raises _ _ _ E).
  - cbn [bind]. unfold py_div. destruct (is_zero standart_value); discriminate.
Qed.

Lemma chart_loop_raises (dates : list date) :
  forall acc e,
    chart_loop data_from_db calculating_field standart_value dates acc = Raise e ->
    e = AttributeError \/ e = TypeError.
Proof.
  induction dates as [|d dates IH]; intros acc e; cbn [chart_loop]; [discriminate|].
  destruct (chart_step data_from_db calculating_field standart_value d) as [item|e'] eqn:E.
  - cbn [bind]. apply IH.
  - cbn [bind]. intros [= <-]. exact (chart_step_raises _ _ E).
Qed.

Lemma chart_loop_length (dates : list date) :
  forall acc out,
    chart_loop data_from_db calculating_field standart_value dates acc = Return out ->
    List.length out = (List.length acc + List.length dates)%nat.
Proof.
  induction dates as [|d dates IH]; intros acc out; cbn [chart_loop].
  - intros [= <-]. cbn. lia.
  - destruct (chart_step data_from_db calculating_field standart_value d) as [item|];
      [|discriminate].
    cbn [bind]. intro H. apply IH in H. rewrite H, length_app. cbn. lia.
Qed.

End ChartShape.

(** X12. A series that [get_data_charts] returns has one value per date,
    whatever the table holds. *)
Theorem get_data_charts_length {T : Type} {number : Number T}
  (py_int : string -> result Z) (objects : database T) (cls : model)
  (dates : list date) (currency : option currency_arg) (out : list T) :
  get_data_charts py_int objects cls dates currency = Return (Some out) ->
  List.length out = List.length dates.
Proof.
  unfold get_data_charts.
  destruct (List.length dates <? 2)%nat; [discriminate|].
  destruct (selected_field py_int cls currency) as [f|];
    [|discriminate].
  cbn [bind].
  destruct (QuerySet.last _) as [b|]; [|discriminate].
  destruct (getattr (Some b) f) as [sv|]; [|discriminate]. cbn [bind].
  destruct (chart_loop _ f sv dates []) as [l|] eqn:E; [|discriminate].
  cbn [bind]. intros [= <-]. now apply chart_loop_length in E.
Qed.

Lemma get_data_charts_length_witness :
  List.length ([num 100; num 100; num 110] : list Qc)
  = List.length [Sample.jan 1; Sample.jan 2; Sample.jan 3].
Proof.
  apply (get_data_charts_length Sample.decimal_int (Sample.beam_db Qc) Balka
           [Sample.jan 1; Sample.jan 2; Sample.jan 3] None).
  qc_eq.
Defined.

(** X13. The division of [get_data_charts] never raises: the exceptions
    of the function are the [AttributeError] and the [TypeError] of its
    attribute accesses and, for a currency given as a text, whatever
    [int(currency)] raises on that text. *)
Theorem get_data_charts_errors {T : Type} {number : Number T}
  (py_int : string -> result Z) (objects : database T) (cls : model)
  (dates : list date) (currency : option currency_arg) (e : exn) :
  get_data_charts py_int objects cls dates currency = Raise e ->
  e = AttributeError \/ e = TypeError
  \/ exists s, currency = Some (CurrencyText s) /\ py_int s = Raise e.
Proof.
  unfold get_data_charts.
  destruct (List.length dates <? 2)%nat; [discriminate|].
  destruct (selected_field py_int cls currency) as [f|e'] eqn:Ef.
  - cbn [bind]. destruct (QuerySet.last _) as [b|]; [|discriminate].
    destruct (getattr (Some b) f) as [sv|e'] eqn:Eb.
    + cbn [bind]. destruct (chart_loop _ f sv dates []) as [l|e'] eqn:E; [discriminate|].
      cbn [bind]. intros [= <-].
      destruct (chart_loop_raises _ _ _ _ _ _ E) as [-> | ->]; auto.
    + cbn [bind]. intros [= <-].
      destruct (getattr_raises _ _ _ Eb) as [-> | ->]; auto.
  - cbn [bind]. intros [= <-]. revert Ef. unfold selected_field.
    destruct (calculating_field_of py_int currency) as [f|e''] eqn:Ec; cbn [bind].
    + unfold fix_composite_field.
      destruct (model_name cls =? "CompositeIndex")%string; [|discriminate].
      destruct f; [discriminate|]. intros [= <-]. now left.
    + intros [= <-]. right. right. revert Ec. unfold calculating_field_of.
      destruct currency as [[n|s]|]; [| |discriminate].
      * destruct (currency_given _); discriminate.
      * destruct (currency_given _); [|discriminate]. cbn [int_of_currency].
        destruct (py_int s) as [code|e1] eqn:Es; [discriminate|].
        intros [= <-]. now exists s.
Qed.

Lemma get_data_charts_errors_witness :
  ValueError = AttributeError \/ ValueError = TypeError
  \/ exists s, Some (CurrencyText "usd") = Some (CurrencyText s)
               /\ Sample.decimal_int s = Raise ValueError.
Proof.
  apply (get_data_charts_errors Sample.decimal_int (Sample.beam_db Qc) Balka
           [Sample.jan 1; Sample.jan 2] (Some (CurrencyText "usd"))).
  reflexivity.
Defined.

(** X14. A currency code outside the enumeration selects no field.  On
    two dates or more, the composite index then raises [AttributeError]
    before any lookup; a product category raises [TypeError] when it has
    a row at or before [dates[0]], and returns [None] when it has none. *)
Theorem get_data_charts_unknown_currency {T : Type} {number : Number T}
  (py_int : string -> result Z) (objects : database T) (cls : model)
  (dates : list date) (c : Z) :
  (2 <= List.length dates)%nat ->
  c <> 0 -> c <> UAH -> c <> USD -> c <> EURO ->
  (cls = CompositeIndex ->
   get_data_charts py_int objects cls dates (Some (CurrencyInt c)) = Raise AttributeError)
  /\ (cls <> CompositeIndex ->
      (none_such (fun r => date_of r <= hd 0 dates) (objects cls) ->
       get_data_charts py_int objects cls dates (Some (CurrencyInt c)) = Return None)
      /\ ((exists r, In r (objects cls) /\ date_of r <= hd 0 dates) ->
          get_data_charts py_int objects cls dates (Some (CurrencyInt c)) = Raise TypeError)).
Proof.
  intros Hlen H0 H1 H2 H3.
  assert (Hf : calculating_field_of py_int (Some (CurrencyInt c)) = Return None).
  { unfold calculating_field_of, currency_given.
    rewrite (proj2 (Z.eqb_neq c 0) H0). cbn [negb int_of_currency bind dict_get CURRENCY_FIELDS].
    rewrite (proj2 (Z.eqb_neq c UAH) H1), (proj2 (Z.eqb_neq c USD) H2),
      (proj2 (Z.eqb_neq c EURO) H3). reflexivity. }
  unfold get_data_charts, selected_field.
  rewrite (long_enough _ Hlen), Hf. cbn [bind]. split.
  - intros ->. reflexivity.
  - intro Hcls.
    assert (Hfix : fix_composite_field cls None = Return None)
      by (destruct cls; try reflexivity; contradiction).
    rewrite Hfix. cbn [bind]. unfold QuerySet.date__lte. split.
    + intro Hnone.
      now rewrite (filter_none _ _ _ (fun x => Z.leb_le (date_of x) (hd 0 dates)) Hnone).
    + intros (r & Hin & Hd).
      destruct (QuerySet.last (filter (fun r0 => date_of r0 <=? hd 0 dates) (objects cls)))
        as [b|] eqn:E; [reflexivity|].
      apply last_none in E.
      assert (Hr : In r (filter (fun r0 => date_of r0 <=? hd 0 dates) (objects cls)))
        by (apply filter_In; split; [assumption | now apply Z.leb_le]).
      rewrite E in Hr. contradiction.
Qed.

Lemma get_data_charts_unknown_currency_witness :
  get_data_charts Sample.decimal_int (Sample.index_db Qc) CompositeIndex
      [Sample.jan 1; Sample.jan 2] (Some (CurrencyInt 7))
  = Raise AttributeError.
Proof.
  apply (get_data_charts_unknown_currency Sample.decimal_int
           (Sample.index_db Qc) CompositeIndex [Sample.jan 1; Sample.jan 2] 7);
    [simpl; lia | discriminate | discriminate | discriminate | discriminate | reflexivity].
Defined.

(** X17. [get_data_charts] does not look ahead: when the first date is
    not after the last, removing the rows dated after the last date of
    the list leaves its result unchanged. *)
Theorem get_data_charts_no_lookahead {T : Type} {number : Number T}
  (py_int : string -> result Z) (objects : database T) (cls : model)
  (dates : list date) (currency : option currency_arg) :
  hd 0 dates <= List.last dates 0 ->
  get_data_charts py_int (rows_until (List.last dates 0) objects) cls dates currency
  = get_data_charts py_int objects cls dates currency.
Proof.
  intro Hle. unfold get_data_charts, rows_until.
  unfold QuerySet.date__lte, QuerySet.date__range.
  rewrite !filter_filter; [reflexivity| |].
  - intros x _ Hx. apply andb_true_iff in Hx as [_ Hx]. exact Hx.
  - intros x _ Hx. apply Z.leb_le in Hx. apply Z.leb_le. lia.
Qed.

Lemma get_data_charts_no_lookahead_witness :
  get_data_charts Sample.decimal_int (rows_until (Sample.jan 2) (Sample.beam_db Qc)) Balka
    [Sample.jan 1; Sample.jan 2] None
  = get_data_charts Sample.decimal_int (Sample.beam_db Qc) Balka [Sample.jan 1; Sample.jan 2] None.
Proof.
  apply (get_data_charts_no_lookahead Sample.decimal_int (Sample.beam_db Qc) Balka
           [Sample.jan 1; Sample.jan 2]).
  vm_compute. intro H. discriminate H.
Defined.

(** ** More on [CalculateMixin.grahp_specification_data] *)

Lemma grahp_specification_data_raises_witness :
  exists e,
    grahp_specification_data Sample.decimal_int (Sample.sparse_db Qc)
        [Sample.jan 2; Sample.jan 3] (Some (CurrencyInt USD))
      (Sample.beam_corner_spec Qc)
    = Raise e.
Proof.
  apply grahp_specification_data_raises. simpl. lia.
Defined.

Lemma grahp_specification_data_no_rows_witness :
  grahp_specification_data Sample.decimal_int (Sample.empty_db Qc) [Sample.jan 1; Sample.jan 2] None
    (Sample.beam_corner_spec Qc)
  = Raise ZeroDivisionError.
Proof.
  rewrite grahp_specification_data_no_rows; [reflexivity | simpl; lia |].
  intros k Hk. cbn in Hk. destruct Hk as [<-|[<-|[]]].
  - exists 3, Balka. repeat split; reflexivity.
  - exists 5, Ugolok. repeat split; reflexivity.
Defined.

Lemma grahp_specification_data_unbound_witness :
  grahp_specification_data Sample.decimal_int (Sample.beam_db Qc) [Sample.jan 1; Sample.jan 2] None
    (Sample.beam_corner_spec Qc)
  = Raise UnboundLocalError.
Proof.
  rewrite grahp_specification_data_unbound; [reflexivity | simpl; lia | |].
  - intros k Hk. cbn in Hk. destruct Hk as [<-|[<-|[]]].
    + exists 3, Balka. split; reflexivity.
    + exists 5, Ugolok. split; reflexivity.
  - exists "3"%string, 3, Balka. repeat split; try reflexivity.
    + cbn. tauto.
    + discriminate.
Defined.

Lemma data_step_of_chain_witness :
  fallback_chain (Sample.sparse_db Qc Balka) (Sample.jan 4)
    (data_step_of (Sample.sparse_db Qc Balka) (Sample.jan 4)).
Proof.
  apply data_step_of_chain. reflexivity.
Defined.

(** X22. A specification whose first key is not the code of a product
    category stops the function on two dates or more, once
    [int(currency)] has not raised: with the error of [int(graph_key)]
    when [int] does not read the key, with [AttributeError] when the
    integer read has no model class, as the code of the composite
    index. *)
Theorem grahp_specification_data_bad_key {T : Type} {number : Number T}
  (py_int : string -> result Z) (objects : database T) (dates : list date)
  (currency : option currency_arg) (graph_key : string) (entry : spec_entry T)
  (rest : list (string * spec_entry T)) :
  (2 <= List.length dates)%nat ->
  (forall e, py_int graph_key = Raise e ->
     grahp_specification_data py_int objects dates currency ((graph_key, entry) :: rest)
     = (_ <- calculating_field_of py_int currency ;; Raise e))
  /\ (forall code, py_int graph_key = Return code ->
        dict_get Z.eqb code get_class_mapping = None ->
        grahp_specification_data py_int objects dates currency ((graph_key, entry) :: rest)
        = (_ <- calculating_field_of py_int currency ;; Raise AttributeError)).
Proof.
  intro Hlen. unfold grahp_specification_data. rewrite (long_enough _ Hlen).
  destruct (calculating_field_of py_int currency) as [f|e0]; [|now split].
  cbn [bind dict_keys map fst cache_loop]. unfold cache_step. split.
  - intros e ->. reflexivity.
  - intros code -> Hmap. cbn [bind]. rewrite Hmap. reflexivity.
Qed.

Lemma grahp_specification_data_bad_key_witness :
  grahp_specification_data Sample.decimal_int (Sample.beam_db Qc) [Sample.jan 1; Sample.jan 2] None
    [("1"%string, Sample.weight Qc "Composite index" 1)]
  = Raise AttributeError.
Proof.
  rewrite (proj2 (grahp_specification_data_bad_key Sample.decimal_int
                    (Sample.beam_db Qc) [Sample.jan 1; Sample.jan 2]
                    None "1"%string (Sample.weight Qc "Composite index" 1) []
                    ltac:(simpl; lia)) 1);
    reflexivity.
Defined.

(** ** More on [CalculateMixin.get_data_table] *)

Section TableResolved.

Context {T : Type} {number : Number T}.

Variable objects : database T.
Variable today : date.
Variable cls : model.
Variable price_field : string.

Lemma percent_change_zero (a b : T) :
  is_zero b = true -> percent_change a b = Raise ZeroDivisionError.
Proof. intro H. unfold percent_change, py_div. now rewrite H. Qed.

Lemma percent_change_raises (a b : T) (e : exn) :
  percent_change a b = Raise e -> e = ZeroDivisionError.
Proof.
  unfold percent_change, py_div. destruct (is_zero b); [|discriminate].
  now intros [= <-].
Qed.

(** Once the four anchor rows and their prices are known, only the three
    percentages remain to be computed. *)
Lemma get_data_table_resolved (rc rm rs ry : row T) (vc vm vs vy : T) :
  ordered_by_date (objects cls) = true ->
  latest_such (fun r => date_of r <= today) (objects cls) rc ->
  latest_such (fun r => date_of r <= minus_relativedelta 0 1 today) (objects cls) rm ->
  (earliest_such (fun r => year_of today <= year_of (date_of r)) (objects cls) rs
   \/ (none_such (fun r => year_of today <= year_of (date_of r)) (objects cls)
       /\ latest_such (fun r => year_of (date_of r) <= year_of today) (objects cls) rs)) ->
  latest_such (fun r => date_of r <= minus_relativedelta 1 0 today) (objects cls) ry ->
  attr rc price_field = Some vc -> attr rm price_field = Some vm ->
  attr rs price_field = Some vs -> attr ry price_field = Some vy ->
  get_data_table objects today cls price_field
  = (m <- percent_change vc vm ;;
     s <- percent_change vc vs ;;
     y <- percent_change vc vy ;;
     Return {| current := vc; month_ago := m; start_year := s; year_ago := y |}).
Proof.
  intros Hord Hc Hm Hs Hy Hvc Hvm Hvs Hvy.
  unfold get_data_table, QuerySet.date__lte, QuerySet.date__year__gte,
    QuerySet.date__year__lte.
  rewrite (last_filter_latest _ _ _ rc (fun x => Z.leb_le (date_of x) today) Hord Hc).
  rewrite (last_filter_latest _ _ _ rm
             (fun x => Z.leb_le (date_of x) (minus_relativedelta 0 1 today)) Hord Hm).
  rewrite (last_filter_latest _ _ _ ry
             (fun x => Z.leb_le (date_of x) (minus_relativedelta 1 0 today)) Hord Hy).
  assert (Hstart :
    match QuerySet.first (filter (fun r => year_of today <=? year_of (date_of r))
                            (objects cls)) with
    | Some r => Some r
    | None => QuerySet.last (filter (fun r => year_of (date_of r) <=? year_of today)
                               (objects cls))
    end = Some rs).
  { destruct Hs as [Hs|[Hnone Hs]].
    - now rewrite (first_filter_earliest _ _ _ rs
                     (fun x => Z.leb_le (year_of today) (year_of (date_of x))) Hord Hs).
    - rewrite (filter_none _ _ _
                 (fun x => Z.leb_le (year_of today) (year_of (date_of x))) Hnone).
      cbn [QuerySet.first hd_error].
      exact (last_filter_latest _ _ _ rs
               (fun x => Z.leb_le (year_of (date_of x)) (year_of today)) Hord Hs). }
  rewrite Hstart.
  rewrite (getattr_attr _ _ _ Hvc), (getattr_attr _ _ _ Hvm),
    (getattr_attr _ _ _ Hvs), (getattr_attr _ _ _ Hvy).
  reflexivity.
Qed.

End TableResolved.

(** X23. When the four anchors have rows and the price of a reference row
    (month ago, start of year or year ago) is exactly zero (it compares
    equal to [0]), [get_data_table] raises [ZeroDivisionError]. *)
Theorem get_data_table_zero_reference {T : Type} {number : Number T}
  (objects : database T) (today : date)
  (cls : model) (price_field : string) (rc rm rs ry : row T) (vc vm vs vy : T) :
  ordered_by_date (objects cls) = true ->
  latest_such (fun r => date_of r <= today) (objects cls) rc ->
  latest_such (fun r => date_of r <= minus_relativedelta 0 1 today) (objects cls) rm ->
  (earliest_such (fun r => year_of today <= year_of (date_of r)) (objects cls) rs
   \/ (none_such (fun r => year_of today <= year_of (date_of r)) (objects cls)
       /\ latest_such (fun r => year_of (date_of r) <= year_of today) (objects cls) rs)) ->
  latest_such (fun r => date_of r <= minus_relativedelta 1 0 today) (objects cls) ry ->
  attr rc price_field = Some vc -> attr rm price_field = Some vm ->
  attr rs price_field = Some vs -> attr ry price_field = Some vy ->
  is_zero vm = true \/ is_zero vs = true \/ is_zero vy = true ->
  get_data_table objects today cls price_field = Raise ZeroDivisionError.
Proof.
  intros Hord Hc Hm Hs Hy Hvc Hvm Hvs Hvy Hzero.
  rewrite (get_data_table_resolved objects today cls price_field
             rc rm rs ry vc vm vs vy); auto.
  destruct (percent_change vc vm) as [m|e] eqn:Em;
    [|now rewrite (percent_change_raises _ _ _ Em)].
  cbn [bind].
  destruct (percent_change vc vs) as [s|e] eqn:Es;
    [|now rewrite (percent_change_raises _ _ _ Es)].
  cbn [bind].
  destruct (percent_change vc vy) as [y|e] eqn:Ey;
    [|now rewrite (percent_change_raises _ _ _ Ey)].
  exfalso. destruct Hzero as [Hz | [Hz | Hz]].
  - rewrite (percent_change_zero _ _ Hz) in Em. discriminate Em.
  - rewrite (percent_change_zero _ _ Hz) in Es. discriminate Es.
  - rewrite (percent_change_zero _ _ Hz) in Ey. discriminate Ey.
Qed.

(** X24. [get_data_table] raises nothing but the [AttributeError] of a
    missing row or attribute and the [ZeroDivisionError] of a reference
    price of zero. *)
Theorem get_data_table_errors {T : Type} {number : Number T}
  (objects : database T) (today : date) (cls : model)
  (price_field : string) (e : exn) :
  get_data_table objects today cls price_field = Raise e ->
  e = AttributeError \/ e = ZeroDivisionError.
Proof.
  unfold get_data_table.
  repeat match goal with
    | |- context [getattr ?o (Some price_field)] =>
        let H := fresh "H" in
        destruct (getattr_cases price_field o) as [H|(? & ? & _ & H)];
        rewrite H; clear H; cbn [bind]; [intros [= <-]; now left|]
    end.
  repeat match goal with
    | |- context [percent_change ?a ?b] =>
        let E := fresh "E" in
        destruct (percent_change a b) eqn:E; cbn [bind];
        [|intros [= <-]; right; exact (percent_change_raises _ _ _ E)]
    end.
  discriminate.
Qed.

Lemma get_data_table_errors_witness :
  AttributeError = AttributeError \/ AttributeError = ZeroDivisionError.
Proof.
  apply (get_data_table_errors (Sample.empty_db Qc) Sample.today_2026 Balka "avg_uah").
  reflexivity.
Defined.

(** X25. When one row stands at all four anchors, as when the latest row
    is more than a year old, and its price is not zero, the table shows
    that price and three changes of zero (in exact arithmetic). *)
Theorem get_data_table_unchanged (objects : database Qc) (today : date)
  (cls : model) (price_field : string) (r : row Qc) (v : Qc) :
  ordered_by_date (objects cls) = true ->
  latest_such (fun x => date_of x <= today) (objects cls) r ->
  latest_such (fun x => date_of x <= minus_relativedelta 0 1 today) (objects cls) r ->
  (earliest_such (fun x => year_of today <= year_of (date_of x)) (objects cls) r
   \/ (none_such (fun x => year_of today <= year_of (date_of x)) (objects cls)
       /\ latest_such (fun x => year_of (date_of x) <= year_of today) (objects cls) r)) ->
  latest_such (fun x => date_of x <= minus_relativedelta 1 0 today) (objects cls) r ->
  attr r price_field = Some v -> v <> (num 0) ->
  get_data_table objects today cls price_field
  = Return {| current := v; month_ago := (num 0); start_year := (num 0); year_ago := (num 0) |}.
Proof.
  intros Hord Hc Hm Hs Hy Hv Hnz.
  rewrite (get_data_table_resolved objects today cls price_field r r r r v v v v); auto.
  rewrite (percent_change_nonzero v v (proj2 (is_zero_false v) Hnz)). cbn [bind].
  assert (Hz : ((v - v) / v * num 100)%num = num 0).
  { cbn [sub div mul num Qc_number].
    replace (v - v)%Qc with 0%Qc by ring. unfold Qcdiv.
    replace (0 * / v * Q2Qc (inject_Z 100))%Qc with 0%Qc by ring.
    apply Qc_is_canon. reflexivity. }
  now rewrite Hz.
Qed.

Lemma get_data_table_zero_reference_witness :
  get_data_table (Sample.zero_month_db Qc) Sample.today_2026 Balka "avg_uah"
  = Raise ZeroDivisionError.
Proof.
  apply (get_data_table_zero_reference (Sample.zero_month_db Qc) Sample.today_2026 Balka
           "avg_uah"%string
           (Sample.priced Qc (ymd2ord 2026 11 1) 120)
           (Sample.priced Qc (ymd2ord 2026 9 30) 0)
           (Sample.priced Qc (ymd2ord 2026 1 10) 90)
           (Sample.priced Qc (ymd2ord 2025 10 1) 80)
           (num 120) (num 0) (num 90) (num 80)).
  - reflexivity.
  - by_rows.
  - by_rows.
  - left. by_rows.
  - by_rows.
  - reflexivity.
  - reflexivity.
  - reflexivity.
  - reflexivity.
  - left. reflexivity.
Defined.

Lemma get_data_table_unchanged_witness :
  get_data_table (Sample.stale_db Qc) Sample.today_2026 Balka "avg_uah"
  = Return {| current := num 70; month_ago := (num 0); start_year := (num 0);
              year_ago := (num 0) |}.
Proof.
  apply (get_data_table_unchanged (Sample.stale_db Qc) Sample.today_2026 Balka
           "avg_uah"%string (Sample.priced Qc (ymd2ord 2024 5 1) 70) (num 70)).
  - reflexivity.
  - by_rows.
  - by_rows.
  - right. split.
    + intros r Hin. simpl in Hin. destruct Hin as [<-|[]].
      vm_compute. intro H. now apply H.
    + by_rows.
  - by_rows.
  - reflexivity.
  - intro H. discriminate H.
Defined.

(** The same table in binary64 floats. *)
Example get_data_table_unchanged_float :
  get_data_table (Sample.stale_db float) Sample.today_2026 Balka "avg_uah"
  = Return {| current := 70%float; month_ago := 0%float; start_year := 0%float;
              year_ago := 0%float |}.
Proof. reflexivity. Qed.
